(** * Flex Living reviews pipeline: normalisation, filtering, sorting, aggregation

    A shallow embedding of [src/lib/reviews/normalize.ts] (with the record
    types of [types.ts] and the approvals store of [store.ts]) and the
    properties of the pipeline stated in the specification.

    Modelling conventions.
    - A JavaScript [number] that comes from the JSON corpus or from a parsed
      query parameter is finite; it is modelled as the rational [Q] it
      denotes.  Division, multiplication and addition of ratings round their
      result to the nearest binary64 number ([JSNumber.fl]), as does the
      reading of a decimal string; a result beyond the binary64 range, which
      is [Infinity] in JavaScript, is kept as the rounded rational.
      Identifiers are integers ([Z]).  Where the source computes with
      [-Infinity] and [NaN] (the sort comparators) the extended type [jsnum]
      is used; only the sign of a comparator's result is used, and the sign
      of a binary64 difference is the sign of the exact one.
    - [null] and [undefined] are both [None].
    - A string is a [string] of 8-bit code units; case mapping, trimming and
      the regular expressions of the source are modelled on the ASCII range,
      a code unit above 127 is an ordinary non-alphanumeric character.
    - [Map] and [Set] keep insertion order, so they are association lists.
    - [Array.prototype.sort] is a stable sort; it is modelled as a stable
      insertion sort driven by the sign of the comparator's result.
    - [String.prototype.localeCompare] depends on the host's collation: it is
      a parameter of the pipeline.
    - [Date.parse] is fixed by ECMA-262 on the date-time string format only;
      what it makes of any other string depends on the host and its time
      zone: that part is a parameter of the pipeline too. *)

From Stdlib Require Import List String Ascii Bool ZArith QArith Qround Qabs Qpower Lia Lqa.
From Stdlib Require Import Permutation Sorted DecimalString.
Import ListNotations.

Local Open Scope string_scope.
Local Open Scope Z_scope.

(* ------------------------------------------------------------------------- *)
(** ** JavaScript strings *)

Module JSString.

Definition code (c : ascii) : N := N_of_ascii c.

Definition isUpper (c : ascii) : bool := ((65 <=? code c) && (code c <=? 90))%N.
Definition isLower (c : ascii) : bool := ((97 <=? code c) && (code c <=? 122))%N.
Definition isDigit (c : ascii) : bool := ((48 <=? code c) && (code c <=? 57))%N.

(** [a-z0-9] *)
Definition isLowerAlnum (c : ascii) : bool := isLower c || isDigit c.

(** [\w] *)
Definition isWordChar (c : ascii) : bool :=
  isLower c || isUpper c || isDigit c || (code c =? 95)%N.

(** the white space and line terminators removed by [trim] *)
Definition isSpace (c : ascii) : bool :=
  ((9 <=? code c) && (code c <=? 13) || (code c =? 32))%N.

Definition lowerChar (c : ascii) : ascii :=
  if isUpper c then ascii_of_N (code c + 32) else c.

Definition upperChar (c : ascii) : ascii :=
  if isLower c then ascii_of_N (code c - 32) else c.

Fixpoint smap (f : ascii -> ascii) (s : string) : string :=
  match s with
  | EmptyString => EmptyString
  | String c s' => String (f c) (smap f s')
  end.

Fixpoint sfilter (p : ascii -> bool) (s : string) : string :=
  match s with
  | EmptyString => EmptyString
  | String c s' => if p c then String c (sfilter p s') else sfilter p s'
  end.

Definition toLowerCase : string -> string := smap lowerChar.

Fixpoint trimStart (s : string) : string :=
  match s with
  | String c s' => if isSpace c then trimStart s' else s
  | EmptyString => EmptyString
  end.

Fixpoint trimEnd (s : string) : string :=
  match s with
  | EmptyString => EmptyString
  | String c s' =>
      match trimEnd s' with
      | EmptyString => if isSpace c then EmptyString else String c EmptyString
      | t => String c t
      end
  end.

Definition trim (s : string) : string := trimEnd (trimStart s).

Definition isEmpty (s : string) : bool :=
  match s with EmptyString => true | _ => false end.

(** [haystack.includes(needle)] *)
Fixpoint includes (haystack needle : string) : bool :=
  if prefix needle haystack then true
  else match haystack with
       | EmptyString => false
       | String _ rest => includes rest needle
       end.

(** [parts.join(sep)] *)
Definition join (sep : string) (parts : list string) : string :=
  String.concat sep parts.

(** [s.split(sep)] for a one-character separator *)
Fixpoint splitOn (sep : ascii) (s : string) : list string :=
  match s with
  | EmptyString => [EmptyString]
  | String c s' =>
      if Ascii.eqb c sep then EmptyString :: splitOn sep s'
      else match splitOn sep s' with
           | [] => [String c EmptyString]
           | w :: ws => String c w :: ws
           end
  end.

(** the maximal runs of non-space characters of [s], in order *)
Fixpoint wordsAcc (cur : string) (s : string) : list string :=
  match s with
  | EmptyString => if isEmpty cur then [] else [cur]
  | String c s' =>
      if isSpace c
      then (if isEmpty cur then wordsAcc EmptyString s'
            else cur :: wordsAcc EmptyString s')
      else wordsAcc (cur ++ String c EmptyString) s'
  end.

Definition words (s : string) : list string := wordsAcc EmptyString s.

(** [String(n)] for an integer [n] *)
Definition ofZ (n : Z) : string := NilZero.string_of_int (Z.to_int n).

(** [a < b] and [a > b] on strings: code-unit order *)
Definition ltb (a b : string) : bool :=
  match String.compare a b with Lt => true | _ => false end.
Definition gtb (a b : string) : bool := ltb b a.

End JSString.

(* ------------------------------------------------------------------------- *)
(** ** JavaScript numbers *)

Module JSNumber.

Local Open Scope Q_scope.

Definition leb (a b : Q) : bool := Qle_bool a b.
Definition ltb (a b : Q) : bool := negb (Qle_bool b a).
Definition geb (a b : Q) : bool := Qle_bool b a.
Definition gtb (a b : Q) : bool := negb (Qle_bool a b).

(** for [x > 0], the [k] with [2^k <= x < 2^(k+1)] *)
Definition floorLog2 (x : Q) : Z :=
  let k := (Z.log2 (Qnum x) - Z.log2 (Zpos (Qden x)))%Z in
  if Qle_bool (2 ^ k) x then k else (k - 1)%Z.

(** the integer nearest to [x], a tie going to the even one *)
Definition roundHalfEven (x : Q) : Z :=
  let f := Qfloor x in
  match Qcompare (x - inject_Z f) (1 # 2) with
  | Lt => f
  | Gt => (f + 1)%Z
  | Eq => if Z.even f then f else (f + 1)%Z
  end.

(** the exponent of the unit in the last place of the binary64 numbers of
    the magnitude of [x]: 53 significant bits, no exponent below -1074 *)
Definition ulpExp (x : Q) : Z := Z.max (floorLog2 (Qabs x) - 52) (-1074).

(** the binary64 number nearest to [x], a tie going to the even significand;
    the result is in lowest terms *)
Definition fl (x : Q) : Q :=
  if Qeq_bool x 0 then 0
  else let e := ulpExp x in Qred (inject_Z (roundHalfEven (x / 2 ^ e)) * 2 ^ e).

(** [a / b], [a * b] and [a + b] on numbers (no divisor of the source is
    zero) *)
Definition div (a b : Q) : Q := fl (a / b).
Definition mul (a b : Q) : Q := fl (a * b).
Definition add (a b : Q) : Q := fl (a + b).

(** the decimal that [x.toFixed(2)] writes: the multiple of 1/100 nearest to
    [x], a tie going away from zero *)
Definition toFixed2 (x : Q) : Q :=
  if Qle_bool 0 x
  then Qred (inject_Z (Qfloor (x * 100 + (1 # 2))) / 100)
  else Qred (- (inject_Z (Qfloor ((- x) * 100 + (1 # 2))) / 100)).

(** [Number(x.toFixed(2))]: the number nearest to that decimal *)
Definition roundTo2 (x : Q) : Q := fl (toFixed2 x).

(** The values a comparator of the source can return. *)
Inductive jsnum : Type :=
| JNaN
| JNegInf
| JFin (q : Q)
| JPosInf.

Definition jsub (a b : jsnum) : jsnum :=
  match a, b with
  | JNaN, _ | _, JNaN => JNaN
  | JFin x, JFin y => JFin (x - y)
  | JFin _, JNegInf => JPosInf
  | JFin _, JPosInf => JNegInf
  | JNegInf, JNegInf => JNaN
  | JPosInf, JPosInf => JNaN
  | JNegInf, _ => JNegInf
  | JPosInf, _ => JPosInf
  end.

Definition signOf (a : jsnum) : option comparison :=
  match a with
  | JNaN => None
  | JNegInf => Some Lt
  | JPosInf => Some Gt
  | JFin q => Some (q ?= 0)
  end.

Definition jmul (a b : jsnum) : jsnum :=
  match a, b with
  | JFin x, JFin y => JFin (x * y)
  | _, _ =>
      match signOf a, signOf b with
      | Some Eq, _ | _, Some Eq | None, _ | _, None => JNaN
      | Some Lt, Some Lt | Some Gt, Some Gt => JPosInf
      | _, _ => JNegInf
      end
  end.

Definition ofZ (n : Z) : jsnum := JFin (inject_Z n).

(** [v > 0], false for [NaN] *)
Definition isPositive (v : jsnum) : bool :=
  match signOf v with Some Gt => true | _ => false end.

(** [v < 0], false for [NaN] *)
Definition isNegative (v : jsnum) : bool :=
  match signOf v with Some Lt => true | _ => false end.

End JSNumber.
Export JSNumber (jsnum, JNaN, JNegInf, JFin, JPosInf).

(* ------------------------------------------------------------------------- *)
(** ** [Array.prototype.sort] *)

Module JSArray.

Section Sort.
Context {A : Type}.
Variable cmp : A -> A -> jsnum.

(** [x] goes after [y] exactly when [cmp x y > 0]; a [NaN] or zero result
    leaves the two in their original order. *)
Fixpoint insert (x : A) (l : list A) : list A :=
  match l with
  | [] => [x]
  | y :: l' =>
      if JSNumber.isPositive (cmp x y) then y :: insert x l'
      else x :: y :: l'
  end.

Definition sort (l : list A) : list A := fold_right insert [] l.
End Sort.

(** [arr.sort()] on strings: ascending code-unit order *)
Definition defaultCompare (a b : string) : jsnum :=
  match String.compare a b with
  | Lt => JSNumber.ofZ (-1)
  | Eq => JSNumber.ofZ 0
  | Gt => JSNumber.ofZ 1
  end.

Definition sortStrings : list string -> list string := sort defaultCompare.

End JSArray.

(* ------------------------------------------------------------------------- *)
(** ** [Date]

    A time value is the number of milliseconds since the epoch ([Z]); [None]
    is the invalid date (time value [NaN]).  ECMA-262 fixes the instant of a
    string in the date-time string format when it names its zone:
    [parseStandard] reads the date-only forms [YYYY], [YYYY-MM] and
    [YYYY-MM-DD], which are UTC, and a full date followed by [THH:mm],
    [THH:mm:ss] or [THH:mm:ss.sss] and the offset [Z], [+HH:mm] or [-HH:mm],
    every field within its range.  Any other string (a date-time without
    offset, which is local time, a field out of range, another format) is
    left to the host: [parse] takes the host's reading as a parameter. *)

Module JSDate.

Definition msPerDay : Z := 86400000.

Definition daysFromCivil (y m d : Z) : Z :=
  let y' := if m <=? 2 then y - 1 else y in
  let era := y' / 400 in
  let yoe := y' - era * 400 in
  let mp := (m + 9) mod 12 in
  let doy := (153 * mp + 2) / 5 + d - 1 in
  let doe := yoe * 365 + yoe / 4 - yoe / 100 + doy in
  era * 146097 + doe - 719468.

(** year, month (1..12), day of month *)
Definition civilFromDays (z0 : Z) : Z * Z * Z :=
  let z := z0 + 719468 in
  let era := z / 146097 in
  let doe := z - era * 146097 in
  let yoe := (doe - doe / 1460 + doe / 36524 - doe / 146096) / 365 in
  let y := yoe + era * 400 in
  let doy := doe - (365 * yoe + yoe / 4 - yoe / 100) in
  let mp := (5 * doy + 2) / 153 in
  let d := doy - (153 * mp + 2) / 5 + 1 in
  let m := if mp <? 10 then mp + 3 else mp - 9 in
  ((if m <=? 2 then y + 1 else y), m, d).

Definition digitVal (c : ascii) : option Z :=
  if JSString.isDigit c then Some (Z.of_N (JSString.code c) - 48) else None.

(** exactly [n] decimal digits at the head of [s] *)
Fixpoint digits (n : nat) (acc : Z) (s : string) : option (Z * string) :=
  match n with
  | O => Some (acc, s)
  | S n' =>
      match s with
      | String c s' =>
          match digitVal c with
          | Some v => digits n' (acc * 10 + v) s'
          | None => None
          end
      | EmptyString => None
      end
  end.

Definition isLeapYear (y : Z) : bool :=
  ((y mod 4 =? 0) && negb (y mod 100 =? 0)) || (y mod 400 =? 0).

Definition daysInMonth (y m : Z) : Z :=
  if m =? 2 then (if isLeapYear y then 29 else 28)
  else if (m =? 4) || (m =? 6) || (m =? 9) || (m =? 11) then 30
  else 31.

(** the time value of a date and a time of day, [None] when a field is out
    of range; the hour 24 stands for the end of the day *)
Definition makeTime (y m d h mi s ms : Z) : option Z :=
  if (1 <=? m) && (m <=? 12) && (1 <=? d) && (d <=? daysInMonth y m)
     && (h <=? 24) && (mi <=? 59) && (s <=? 59)
     && ((h <? 24) || ((mi =? 0) && (s =? 0) && (ms =? 0)))
  then Some (daysFromCivil y m d * msPerDay
             + h * 3600000 + mi * 60000 + s * 1000 + ms)
  else None.

(** the UTC offset that ends a date-time, in minutes: [Z], [+HH:mm] or
    [-HH:mm] *)
Definition parseOffset (s : string) : option Z :=
  match s with
  | String "Z" EmptyString => Some 0
  | String sign r =>
      if Ascii.eqb sign "+" || Ascii.eqb sign "-" then
        match digits 2 0 r with
        | Some (h, String ":" r1) =>
            match digits 2 0 r1 with
            | Some (mi, EmptyString) =>
                if (h <=? 23) && (mi <=? 59)
                then Some ((if Ascii.eqb sign "-" then -1 else 1) * (h * 60 + mi))
                else None
            | _ => None
            end
        | _ => None
        end
      else None
  | EmptyString => None
  end.

(** the instant of the time of day [h:mi:s.ms] of a date, written with the
    offset [rest] *)
Definition zonedTime (y m d h mi s ms : Z) (rest : string) : option Z :=
  match parseOffset rest, makeTime y m d h mi s ms with
  | Some offset, Some t => Some (t - offset * 60000)
  | _, _ => None
  end.

Definition parseTime (y m d : Z) (s : string) : option Z :=
  match digits 2 0 s with
  | Some (h, String ":" r1) =>
      match digits 2 0 r1 with
      | Some (mi, String ":" r2) =>
          match digits 2 0 r2 with
          | Some (sec, String "." r3) =>
              match digits 3 0 r3 with
              | Some (ms, r4) => zonedTime y m d h mi sec ms r4
              | None => None
              end
          | Some (sec, r3) => zonedTime y m d h mi sec 0 r3
          | None => None
          end
      | Some (mi, r2) => zonedTime y m d h mi 0 0 r2
      | None => None
      end
  | _ => None
  end.

(** the instant ECMA-262 gives to a string of the date-time string format
    that is a date-only form or names its offset; [None] for any other
    string *)
Definition parseStandard (s : string) : option Z :=
  match digits 4 0 s with
  | Some (y, EmptyString) => makeTime y 1 1 0 0 0 0
  | Some (y, String "-" r1) =>
      match digits 2 0 r1 with
      | Some (m, EmptyString) => makeTime y m 1 0 0 0 0
      | Some (m, String "-" r2) =>
          match digits 2 0 r2 with
          | Some (d, EmptyString) => makeTime y m d 0 0 0 0
          | Some (d, String "T" r3) => parseTime y m d r3
          | _ => None
          end
      | _ => None
      end
  | _ => None
  end.

(** [new Date(s).getTime()], [None] for [NaN]; [hostParse] is the host's
    reading of a string outside [parseStandard] *)
Definition parse (hostParse : string -> option Z) (s : string) : option Z :=
  match parseStandard s with
  | Some t => Some t
  | None => hostParse s
  end.

Fixpoint zeros (n : nat) : string :=
  match n with
  | O => EmptyString
  | S n' => String "0" (zeros n')
  end.

(** [s.padStart(w, "0")] *)
Definition padStart (w : nat) (s : string) : string :=
  zeros (w - String.length s) ++ s.

Definition pad (w : nat) (n : Z) : string := padStart w (JSString.ofZ n).

Definition getUTCFullYear (t : Z) : Z := fst (fst (civilFromDays (t / msPerDay))).

(** 0-based month *)
Definition getUTCMonth (t : Z) : Z := snd (fst (civilFromDays (t / msPerDay))) - 1.

Definition getUTCDate (t : Z) : Z := snd (civilFromDays (t / msPerDay)).

Definition yearString (y : Z) : string :=
  if (0 <=? y) && (y <=? 9999) then pad 4 y
  else if y <? 0 then "-" ++ pad 6 (- y)
  else "+" ++ pad 6 y.

(** [new Date(t).toISOString()] *)
Definition toISOString (t : Z) : string :=
  let r := t mod msPerDay in
  yearString (getUTCFullYear t) ++ "-" ++ pad 2 (getUTCMonth t + 1) ++ "-"
    ++ pad 2 (getUTCDate t) ++ "T" ++ pad 2 (r / 3600000) ++ ":"
    ++ pad 2 (r mod 3600000 / 60000) ++ ":" ++ pad 2 (r mod 60000 / 1000)
    ++ "." ++ pad 3 (r mod 1000) ++ "Z".

End JSDate.

(* ------------------------------------------------------------------------- *)
(** ** [Map]: an association list in insertion order *)

Module JSMap.

Section Map.
Context {K V : Type}.
Variable eqb : K -> K -> bool.

Fixpoint get (m : list (K * V)) (k : K) : option V :=
  match m with
  | [] => None
  | (k', v) :: m' => if eqb k' k then Some v else get m' k
  end.

Definition has (m : list (K * V)) (k : K) : bool :=
  match get m k with Some _ => true | None => false end.

(** an existing key keeps its position, a new key goes last *)
Fixpoint set (m : list (K * V)) (k : K) (v : V) : list (K * V) :=
  match m with
  | [] => [(k, v)]
  | (k', v') :: m' =>
      if eqb k' k then (k, v) :: m' else (k', v') :: set m' k v
  end.

Definition keys (m : list (K * V)) : list K := map fst m.
End Map.

(** [Set.add] *)
Fixpoint add {K : Type} (eqb : K -> K -> bool) (s : list K) (k : K) : list K :=
  match s with
  | [] => [k]
  | k' :: s' => if eqb k' k then s else k' :: add eqb s' k
  end.

End JSMap.

(* ------------------------------------------------------------------------- *)
(** ** Arrays as shared mutable objects

    [filter] and [map] allocate a new array, [sort] reorders its receiver in
    place and returns it.  A heap is the list of the arrays allocated so far,
    a reference is an index into it. *)

Module Heap.

Section Heap.
Context {A : Type}.

Definition ref : Type := nat.
Definition heap : Type := list (list A).
Definition M (B : Type) : Type := heap -> B * heap.

Definition ret {B : Type} (b : B) : M B := fun h => (b, h).

Definition bind {B C : Type} (m : M B) (k : B -> M C) : M C :=
  fun h => let '(b, h') := m h in k b h'.

Definition alloc (l : list A) : M ref :=
  fun h => (List.length h, (h ++ [l])%list).

Definition contents (h : heap) (r : ref) : list A := nth r h [].

Definition read (r : ref) : M (list A) := fun h => (contents h r, h).

Fixpoint update (r : ref) (l : list A) (h : heap) : heap :=
  match h, r with
  | [], _ => []
  | _ :: h', O => l :: h'
  | x :: h', S r' => x :: update r' l h'
  end.

Definition write (r : ref) (l : list A) : M unit :=
  fun h => (tt, update r l h).

(** [arr.filter(p)] *)
Definition arrayFilter (arr : ref) (p : A -> bool) : M ref :=
  bind (read arr) (fun l => alloc (List.filter p l)).

(** [arr.sort(cmp)] *)
Definition arraySort (arr : ref) (cmp : A -> A -> jsnum) : M ref :=
  bind (read arr) (fun l =>
  bind (write arr (JSArray.sort cmp l)) (fun _ =>
  ret arr)).
End Heap.

End Heap.

Notation "x <- m ;; k" := (Heap.bind m (fun x => k))
  (at level 61, m at next level, right associativity).

(* ------------------------------------------------------------------------- *)
(** ** store.ts: the approvals store *)

Inductive ApprovalSource : Type := initial | manager.

Record ApprovalRecord : Type := mkApprovalRecord {
  value : bool;
  updatedAt : string;
  source : ApprovalSource
}.

Definition ApprovalsStore : Type := list (string * ApprovalRecord).

Definition getApproval (store : ApprovalsStore) (id : string) : option bool :=
  match JSMap.get String.eqb store id with
  | Some record => Some (value record)
  | None => None
  end.

(** [now] is [new Date().toISOString()] at the time of the call. *)
Definition ensureInitialValue (store : ApprovalsStore) (now : string)
    (id : string) (fallback : option bool) : ApprovalsStore :=
  if JSMap.has String.eqb store id then store
  else match fallback with
       | None => store
       | Some v => JSMap.set String.eqb store id (mkApprovalRecord v now initial)
       end.

Definition setApproval (store : ApprovalsStore) (now : string)
    (id : string) (v : bool) : ApprovalsStore :=
  JSMap.set String.eqb store id (mkApprovalRecord v now manager).

Definition snapshot (store : ApprovalsStore) : list (string * ApprovalRecord) :=
  map (fun '(id, record) => (id, record)) store.

(* ------------------------------------------------------------------------- *)
(** ** types.ts *)

Inductive ReviewChannel : Type :=
  airbnb | booking | google | expedia | flex | vrbo | direct | other.

Inductive ReviewStatus : Type := published | pending | hidden | archived.

Inductive ReviewType : Type :=
  guest_to_host | host_to_guest | guest_to_guest | host_to_host | unknown.

Definition channelName (c : ReviewChannel) : string :=
  match c with
  | airbnb => "airbnb" | booking => "booking" | google => "google"
  | expedia => "expedia" | flex => "flex" | vrbo => "vrbo"
  | direct => "direct" | other => "other"
  end.

Definition statusName (s : ReviewStatus) : string :=
  match s with
  | published => "published" | pending => "pending"
  | hidden => "hidden" | archived => "archived"
  end.

Definition typeName (t : ReviewType) : string :=
  match t with
  | guest_to_host => "guest-to-host" | host_to_guest => "host-to-guest"
  | guest_to_guest => "guest-to-guest" | host_to_host => "host-to-host"
  | unknown => "unknown"
  end.

Definition channel_eqb (a b : ReviewChannel) : bool :=
  String.eqb (channelName a) (channelName b).
Definition status_eqb (a b : ReviewStatus) : bool :=
  String.eqb (statusName a) (statusName b).
Definition type_eqb (a b : ReviewType) : bool :=
  String.eqb (typeName a) (typeName b).

Record HostawayCategoryRating : Type := mkCategoryRating {
  cr_category : option string;
  cr_rating : option Q
}.

Record HostawayReview : Type := mkHostawayReview {
  raw_id : Z;
  raw_listingId : Z;
  raw_listingName : option string;
  raw_type : option string;
  raw_channel : option string;
  raw_status : option string;
  raw_rating : option Q;
  raw_ratingScale : option Q;
  raw_publicReview : option string;
  raw_privateReview : option string;
  raw_reviewCategory : option (list HostawayCategoryRating);
  raw_submittedAt : option string;
  raw_guestName : option string;
  raw_managerResponse : option string;
  raw_tags : option (list string);
  raw_publishOnFlex : option bool
}.

Record NormalizedCategoryRating : Type := mkNormalizedCategoryRating {
  key : string;
  label : string;
  rating : option Q;
  scale : Q;
  normalizedRating : option Q
}.

Record NormalizedReview : Type := mkNormalizedReview {
  id : string;
  sourceId : Z;
  listingId : Z;
  listingName : string;
  listingSlug : string;
  submittedAt : string;
  channel : ReviewChannel;
  type : ReviewType;
  status : ReviewStatus;
  guestName : option string;
  publicReview : option string;
  privateReview : option string;
  managerResponse : option string;
  nr_rating : option Q;
  ratingScale : Q;
  nr_normalizedRating : option Q;
  categoryRatings : list NormalizedCategoryRating;
  tags : list string;
  isApproved : bool
}.

Record ListingChannelBreakdown : Type := mkChannelBreakdown {
  cb_channel : ReviewChannel;
  cb_label : string;
  cb_count : Z;
  cb_ratio : Q
}.

Record ListingCategoryAverages : Type := mkCategoryAverages {
  ca_category : string;
  ca_average : option Q;
  ca_scale : Q;
  ca_normalizedAverage : option Q
}.

Record ListingTrendPoint : Type := mkTrendPoint {
  period : string;
  tp_averageRating : option Q;
  tp_normalizedAverage : option Q;
  reviewCount : Z
}.

Record ListingReviewSummary : Type := mkListingSummary {
  ls_listingId : Z;
  ls_listingName : string;
  ls_listingSlug : string;
  ls_totalReviews : Z;
  ls_approvedReviews : Z;
  lastReviewDate : option string;
  ls_averageRating : option Q;
  ls_ratingScale : Q;
  ls_normalizedAverageRating : option Q;
  channels : list ListingChannelBreakdown;
  categoryAverages : list ListingCategoryAverages;
  ratingTrend : list ListingTrendPoint
}.

Record DateRange : Type := mkDateRange {
  dr_from : option string;
  dr_to : option string
}.

Record CollectionMetrics : Type := mkCollectionMetrics {
  totalReviews : Z;
  approvedReviews : Z;
  averageRating : option Q;
  cm_ratingScale : Q;
  normalizedAverageRating : option Q;
  dateRange : DateRange
}.

Record MetaDateRange : Type := mkMetaDateRange {
  dr_min : option string;
  dr_max : option string
}.

Record MetaFilters : Type := mkMetaFilters {
  mf_channels : list ReviewChannel;
  mf_reviewTypes : list ReviewType;
  mf_categories : list string;
  mf_statuses : list ReviewStatus;
  mf_dateRange : MetaDateRange
}.

Record ResponseMeta : Type := mkResponseMeta {
  generatedAt : string;
  filters : MetaFilters
}.

Record ResponseMetrics : Type := mkResponseMetrics {
  overall : CollectionMetrics;
  filtered : CollectionMetrics
}.

Record ReviewsResponse : Type := mkReviewsResponse {
  meta : ResponseMeta;
  metrics : ResponseMetrics;
  listings : list ListingReviewSummary;
  reviews : list NormalizedReview
}.

(* ------------------------------------------------------------------------- *)
(** ** normalize.ts: sanitising, coercion, scale detection *)

(** the values that are not [null] *)
Definition present {A : Type} (values : list (option A)) : list A :=
  flat_map (fun v => match v with Some x => [x] | None => [] end) values.

(** a string that is present and not empty *)
Definition truthy (s : option string) : option string :=
  match s with
  | Some v => if JSString.isEmpty v then None else Some v
  | None => None
  end.

Definition DEFAULT_RATING_SCALE : Q := 5.
Definition NORMALIZED_TARGET_SCALE : Q := 5.

(** [/[\u0000-\u001F\u007F]/] *)
Definition CONTROL_CHARACTERS (c : ascii) : bool :=
  ((JSString.code c <=? 31) || (JSString.code c =? 127))%N.

(** the five characters removed as markup-significant: less-than,
    greater-than, double quote, apostrophe, backquote *)
Definition HTML_DANGEROUS_CHARS (c : ascii) : bool :=
  let n := JSString.code c in
  ((n =? 60) || (n =? 62) || (n =? 34) || (n =? 39) || (n =? 96))%N.

Definition sanitizeText (value : option string) : option string :=
  match value with
  | None => None
  | Some v =>
      if JSString.isEmpty v then None
      else
        let trimmed := JSString.trim v in
        if JSString.isEmpty trimmed then None
        else
          let withoutControl :=
            JSString.sfilter (fun c => negb (CONTROL_CHARACTERS c)) trimmed in
          if JSString.isEmpty withoutControl then None
          else Some (JSString.sfilter (fun c => negb (HTML_DANGEROUS_CHARS c))
                       withoutControl)
  end.

Definition sanitizeAndFallback (value : option string) (fallback : string) : string :=
  match sanitizeText value with
  | Some s => s
  | None => fallback
  end.

Definition CHANNEL_LABELS (c : ReviewChannel) : string :=
  match c with
  | airbnb => "Airbnb"
  | booking => "Booking.com"
  | google => "Google"
  | expedia => "Expedia"
  | vrbo => "Vrbo"
  | direct => "Direct"
  | flex => "Flex Living"
  | other => "Other"
  end.

(** own properties of the lookup table *)
Definition REVIEW_TYPE_FALLBACKS (k : string) : option ReviewType :=
  if String.eqb k "guest-to-host" then Some guest_to_host
  else if String.eqb k "host-to-guest" then Some host_to_guest
  else if String.eqb k "guest-to-guest" then Some guest_to_guest
  else if String.eqb k "host-to-host" then Some host_to_host
  else None.

Definition REVIEW_STATUS_FALLBACKS (k : string) : option ReviewStatus :=
  if String.eqb k "published" then Some published
  else if String.eqb k "pending" then Some pending
  else if String.eqb k "hidden" then Some hidden
  else if String.eqb k "archived" then Some archived
  else None.

(** [.replace(/[^a-z0-9]+/g, "-")]: [inRun] says that the previous character
    belonged to the run being replaced. *)
Fixpoint replaceNonAlnumRuns (inRun : bool) (s : string) : string :=
  match s with
  | EmptyString => EmptyString
  | String c s' =>
      if JSString.isLowerAlnum c then String c (replaceNonAlnumRuns false s')
      else if inRun then replaceNonAlnumRuns true s'
      else String "-" (replaceNonAlnumRuns true s')
  end.

Definition isHyphen (c : ascii) : bool := Ascii.eqb c "-".

(** remove a final hyphen *)
Fixpoint dropLastHyphen (s : string) : string :=
  match s with
  | EmptyString => EmptyString
  | String c EmptyString => if isHyphen c then EmptyString else s
  | String c s' => String c (dropLastHyphen s')
  end.

(** the second replacement of [toSlug], by the empty string, of the matches
    of [/(^-|-$)+/g]: [^-] matches one hyphen at the start, [-$] one hyphen
    at the end. *)
Definition stripEdgeHyphens (s : string) : string :=
  match s with
  | String c s' => if isHyphen c then dropLastHyphen s' else dropLastHyphen s
  | EmptyString => EmptyString
  end.

Definition toSlug (value : string) : string :=
  stripEdgeHyphens
    (replaceNonAlnumRuns false
       (JSString.toLowerCase (sanitizeAndFallback (Some value) "listing"))).

Definition coerceChannel (value : option string) : ReviewChannel :=
  match value with
  | None => other
  | Some v =>
      if JSString.isEmpty v then other
      else
        let normalized := JSString.toLowerCase v in
        if JSString.includes normalized "airbnb" then airbnb
        else if JSString.includes normalized "booking" then booking
        else if JSString.includes normalized "google" then google
        else if JSString.includes normalized "expedia" then expedia
        else if JSString.includes normalized "vrbo" then vrbo
        else if JSString.includes normalized "flex" then flex
        else if JSString.includes normalized "direct" then direct
        else other
  end.

Definition coerceType (value : option string) : ReviewType :=
  match value with
  | None => unknown
  | Some v =>
      if JSString.isEmpty v then unknown
      else match REVIEW_TYPE_FALLBACKS (JSString.toLowerCase v) with
           | Some t => t
           | None => unknown
           end
  end.

Definition coerceStatus (value : option string) : ReviewStatus :=
  match value with
  | None => published
  | Some v =>
      if JSString.isEmpty v then published
      else match REVIEW_STATUS_FALLBACKS (JSString.toLowerCase v) with
           | Some t => t
           | None => published
           end
  end.

Definition detectScale (rating ratingScale : option Q) : Q :=
  match (match ratingScale with
         | Some s => if JSNumber.gtb s 0 then Some s else None
         | None => None
         end) with
  | Some s => s
  | None =>
      match rating with
      | None => DEFAULT_RATING_SCALE
      | Some r =>
          if JSNumber.leb r 5 then 5
          else if JSNumber.leb r 10 then 10
          else if JSNumber.leb r 20 then 20
          else if JSNumber.leb r 100 then 100
          else DEFAULT_RATING_SCALE
      end
  end.

Definition normalizeValueToTarget (value : option Q) (scale targetScale : Q)
    : option Q :=
  match value with
  | None => None
  | Some v =>
      if JSNumber.leb scale 0 then None
      else Some (JSNumber.roundTo2 (JSNumber.mul (JSNumber.div v scale) targetScale))
  end.

(** [.replace(/_/g, " ")] *)
Definition underscoresToSpaces : string -> string :=
  JSString.smap (fun c => if Ascii.eqb c "_" then " "%char else c).

(** [.replace(/\b\w/g, s => s.toUpperCase())]: [prevWord] says that the
    previous character was a word character. *)
Fixpoint capitalizeWords (prevWord : bool) (s : string) : string :=
  match s with
  | EmptyString => EmptyString
  | String c s' =>
      if JSString.isWordChar c
      then String (if prevWord then c else JSString.upperChar c)
                  (capitalizeWords true s')
      else String c (capitalizeWords false s')
  end.

Definition humanizeCategory (k : string) : string :=
  capitalizeWords false
    (underscoresToSpaces (sanitizeAndFallback (Some k) "General")).

Definition normalizeCategories (categories : option (list HostawayCategoryRating))
    : list NormalizedCategoryRating :=
  match categories with
  | None => []
  | Some cs =>
      map (fun c =>
             let scale := detectScale (cr_rating c) None in
             let normalized :=
               normalizeValueToTarget (cr_rating c) scale NORMALIZED_TARGET_SCALE in
             let safeKey := sanitizeAndFallback (cr_category c) "other" in
             mkNormalizedCategoryRating safeKey (humanizeCategory safeKey)
               (cr_rating c) scale normalized)
          cs
  end.

Definition toIsoString (date : option Z) : option string :=
  match date with
  | Some t => Some (JSDate.toISOString t)
  | None => None
  end.

Section Pipeline.

(** what the host makes of a date string outside the standard format *)
Variable hostParse : string -> option Z.

(** [a.localeCompare(b)]: negative, zero or positive *)
Variable localeCompare : string -> string -> Z.

(** the time value of the parsed date, [None] for [null] *)
Definition parseDate (value : option string) : option Z :=
  match value with
  | None => None
  | Some v => if JSString.isEmpty v then None else JSDate.parse hostParse v
  end.

Definition normalizeReview (store : ApprovalsStore) (review : HostawayReview)
    : NormalizedReview :=
  let scale := detectScale (raw_rating review) (raw_ratingScale review) in
  let normalizedRating :=
    normalizeValueToTarget (raw_rating review) scale NORMALIZED_TARGET_SCALE in
  let normalizedCategories := normalizeCategories (raw_reviewCategory review) in
  let safeListingName :=
    sanitizeAndFallback (raw_listingName review) "Flex Living Listing" in
  let slug := toSlug safeListingName in
  let date := match parseDate (raw_submittedAt review) with
              | Some t => t
              | None => 0
              end in
  let approvalOverride := getApproval store (JSString.ofZ (raw_id review)) in
  {| id := "hostaway-" ++ JSString.ofZ (raw_id review);
     sourceId := raw_id review;
     listingId := raw_listingId review;
     listingName := safeListingName;
     listingSlug := slug;
     submittedAt := JSDate.toISOString date;
     channel := coerceChannel (raw_channel review);
     type := coerceType (raw_type review);
     status := coerceStatus (raw_status review);
     guestName := sanitizeText (raw_guestName review);
     publicReview := sanitizeText (raw_publicReview review);
     privateReview := sanitizeText (raw_privateReview review);
     managerResponse := sanitizeText (raw_managerResponse review);
     nr_rating := raw_rating review;
     ratingScale := scale;
     nr_normalizedRating := normalizedRating;
     categoryRatings := normalizedCategories;
     tags :=
       present
         (map truthy
            (map (fun tag => sanitizeText (Some tag))
               (match raw_tags review with Some ts => ts | None => [] end)));
     isApproved :=
       match approvalOverride with
       | Some v => v
       | None =>
           match raw_publishOnFlex review with
           | Some p => p
           | None =>
               match normalizedRating with
               | Some n => JSNumber.geb n (JSNumber.fl (44 # 10))
               | None => false
               end
           end
       end |}.

(* ------------------------------------------------------------------------- *)
(** ** normalize.ts: aggregation *)

Definition lengthQ {A : Type} (l : list A) : Q := inject_Z (Z.of_nat (List.length l)).

Definition average (values : list (option Q)) : option Q :=
  let filtered := present values in
  match filtered with
  | [] => None
  | _ :: _ =>
      let sum := fold_left JSNumber.add filtered 0%Q in
      Some (JSNumber.roundTo2 (JSNumber.div sum (lengthQ filtered)))
  end.

Definition buildChannelBreakdown (reviews : list NormalizedReview)
    : list ListingChannelBreakdown :=
  match reviews with
  | [] => []
  | _ :: _ =>
      let counts :=
        fold_left
          (fun counts review =>
             JSMap.set channel_eqb counts (channel review)
               (match JSMap.get channel_eqb counts (channel review) with
                | Some n => n
                | None => 0
                end + 1))
          reviews [] in
      map (fun '(ch, count) =>
             mkChannelBreakdown ch (CHANNEL_LABELS ch) count
               (JSNumber.roundTo2 (JSNumber.div (inject_Z count) (lengthQ reviews))))
          counts
  end.

(** the [tracked] map of [buildCategoryAverages] after one category rating *)
Definition trackCategory (tracked : list (string * (Q * list Q)))
    (category : NormalizedCategoryRating) : list (string * (Q * list Q)) :=
  let tracked1 :=
    if JSMap.has String.eqb tracked (key category) then tracked
    else JSMap.set String.eqb tracked (key category) (scale category, []) in
  match normalizedRating category with
  | Some n =>
      match JSMap.get String.eqb tracked1 (key category) with
      | Some (sc, values) =>
          JSMap.set String.eqb tracked1 (key category) (sc, (values ++ [n])%list)
      | None => tracked1
      end
  | None => tracked1
  end.

Definition trackedCategories (reviews : list NormalizedReview)
    : list (string * (Q * list Q)) :=
  fold_left (fun tracked review => fold_left trackCategory (categoryRatings review) tracked)
            reviews [].

Definition buildCategoryAverages (reviews : list NormalizedReview)
    : list ListingCategoryAverages :=
  map (fun '(k, (sc, values)) =>
         let normalizedAverage := average (map Some values) in
         mkCategoryAverages (humanizeCategory k)
           (match normalizedAverage with
            | None => None
            | Some a =>
                Some (JSNumber.roundTo2
                        (JSNumber.mul (JSNumber.div a NORMALIZED_TARGET_SCALE) sc))
            end)
           sc normalizedAverage)
      (trackedCategories reviews).

(** [new Date(s).getTime()] as a number *)
Definition getTime (s : string) : jsnum :=
  match JSDate.parse hostParse s with
  | Some t => JSNumber.ofZ t
  | None => JNaN
  end.

Definition periodOf (review : NormalizedReview) : string :=
  match JSDate.parse hostParse (submittedAt review) with
  | Some t =>
      JSString.ofZ (JSDate.getUTCFullYear t) ++ "-"
        ++ JSDate.padStart 2 (JSString.ofZ (JSDate.getUTCMonth t + 1))
  | None => "NaN-NaN"
  end.

Definition buildTrend (reviews : list NormalizedReview) : list ListingTrendPoint :=
  match reviews with
  | [] => []
  | _ :: _ =>
      let buckets :=
        fold_left
          (fun buckets review =>
             let p := periodOf review in
             let buckets1 :=
               if JSMap.has String.eqb buckets p then buckets
               else JSMap.set String.eqb buckets p [] in
             match JSMap.get String.eqb buckets1 p with
             | Some rs => JSMap.set String.eqb buckets1 p ((rs ++ [review])%list)
             | None => buckets1
             end)
          reviews [] in
      map (fun '(p, periodReviews) =>
             let normalizedAverage :=
               average (map nr_normalizedRating periodReviews) in
             mkTrendPoint p normalizedAverage normalizedAverage
               (Z.of_nat (List.length periodReviews)))
          (JSArray.sort
             (fun a b : string * list NormalizedReview =>
                if JSString.gtb (fst a) (fst b) then JSNumber.ofZ 1
                else JSNumber.ofZ (-1))
             buckets)
  end.

Definition countApproved (reviews : list NormalizedReview) : Z :=
  Z.of_nat (List.length (filter isApproved reviews)).

Definition minimum (ts : list Z) : option Z :=
  match ts with
  | [] => None
  | t :: ts' => Some (fold_left Z.min ts' t)
  end.

Definition maximum (ts : list Z) : option Z :=
  match ts with
  | [] => None
  | t :: ts' => Some (fold_left Z.max ts' t)
  end.

Definition computeMetrics (reviews : list NormalizedReview) : CollectionMetrics :=
  let normalizedAverage := average (map nr_normalizedRating reviews) in
  let dates :=
    present (map (fun review => JSDate.parse hostParse (submittedAt review)) reviews) in
  let from := minimum dates in
  let to := maximum dates in
  {| totalReviews := Z.of_nat (List.length reviews);
     approvedReviews := countApproved reviews;
     averageRating := normalizedAverage;
     cm_ratingScale := NORMALIZED_TARGET_SCALE;
     normalizedAverageRating := normalizedAverage;
     dateRange := {| dr_from := toIsoString from; dr_to := toIsoString to |} |}.

(* ------------------------------------------------------------------------- *)
(** ** normalize.ts: filters *)

Record ReviewFilters : Type := mkReviewFilters {
  f_listingId : option Z;
  f_listingSlug : option string;
  f_channels : option (list ReviewChannel);
  f_types : option (list ReviewType);
  f_statuses : option (list ReviewStatus);
  f_approved : option bool;
  f_minRating : option Q;
  f_maxRating : option Q;
  f_category : option string;
  f_minCategoryRating : option Q;
  f_startDate : option string;
  f_endDate : option string;
  f_search : option string;
  f_sort : option string
}.

(** a list that is present and not empty *)
Definition nonEmpty {A : Type} (l : option (list A)) : option (list A) :=
  match l with
  | Some (x :: l') => Some (x :: l')
  | _ => None
  end.

Definition orEmpty (s : option string) : string :=
  match s with Some v => v | None => EmptyString end.

Definition haystackOf (review : NormalizedReview) : string :=
  JSString.toLowerCase
    (JSString.join " "
       (listingName review
          :: orEmpty (guestName review)
          :: orEmpty (publicReview review)
          :: orEmpty (privateReview review)
          :: orEmpty (managerResponse review)
          :: tags review)).

Definition matchesFilters (review : NormalizedReview) (filters : ReviewFilters)
    : bool :=
  if match f_listingId filters with
     | Some l => negb (listingId review =? l)
     | None => false
     end then false
  else if match truthy (f_listingSlug filters) with
          | Some s => negb (String.eqb (listingSlug review) s)
          | None => false
          end then false
  else if match nonEmpty (f_channels filters) with
          | Some cs => negb (existsb (channel_eqb (channel review)) cs)
          | None => false
          end then false
  else if match nonEmpty (f_types filters) with
          | Some ts => negb (existsb (type_eqb (type review)) ts)
          | None => false
          end then false
  else if match nonEmpty (f_statuses filters) with
          | Some ss => negb (existsb (status_eqb (status review)) ss)
          | None => false
          end then false
  else if match f_approved filters with
          | Some a => negb (Bool.eqb (isApproved review) a)
          | None => false
          end then false
  else if match f_minRating filters with
          | Some lo =>
              match nr_normalizedRating review with
              | None => true
              | Some n => JSNumber.ltb n lo
              end
          | None => false
          end then false
  else if match f_maxRating filters with
          | Some hi =>
              match nr_normalizedRating review with
              | None => true
              | Some n => JSNumber.gtb n hi
              end
          | None => false
          end then false
  else if match truthy (f_category filters) with
          | Some wanted =>
              match find (fun category =>
                            String.eqb (JSString.toLowerCase (key category)) wanted)
                         (categoryRatings review) with
              | None => true
              | Some categoryMatch =>
                  match f_minCategoryRating filters with
                  | Some lo =>
                      match normalizedRating categoryMatch with
                      | None => true
                      | Some n => JSNumber.ltb n lo
                      end
                  | None => false
                  end
              end
          | None => false
          end then false
  else
    let startDate := match truthy (f_startDate filters) with
                     | Some s => parseDate (Some s)
                     | None => None
                     end in
    let endDate := match truthy (f_endDate filters) with
                   | Some s => parseDate (Some s)
                   | None => None
                   end in
    if match startDate, endDate with
       | None, None => false
       | _, _ =>
           match parseDate (Some (submittedAt review)) with
           | None => true
           | Some submitted =>
               match startDate with
               | Some s => submitted <? s
               | None => false
               end
               || match endDate with
                  | Some e => submitted >? e
                  | None => false
                  end
           end
       end then false
    else if match truthy (f_search filters) with
            | Some q =>
                let lowerQuery := JSString.toLowerCase q in
                negb (JSString.includes (haystackOf review) lowerQuery)
            | None => false
            end then false
    else true.

(** the sets of [collectMetaFilters], in insertion order *)
Definition collectSet {K : Type} (eqb : K -> K -> bool) (ks : list K) : list K :=
  fold_left (JSMap.add eqb) ks [].

(** [Array.from(set).sort()] on an enumeration: by the strings it stands for *)
Definition sortBy {K : Type} (name : K -> string) : list K -> list K :=
  JSArray.sort (fun a b => JSArray.defaultCompare (name a) (name b)).

Definition collectMetaFilters (reviews : list NormalizedReview) : MetaFilters :=
  let dates := present (map (fun review => parseDate (Some (submittedAt review))) reviews) in
  let channels := collectSet channel_eqb (map channel reviews) in
  let types := collectSet type_eqb (map type reviews) in
  let statuses := collectSet status_eqb (map status reviews) in
  let categories :=
    collectSet String.eqb
      (flat_map (fun review => map key (categoryRatings review)) reviews) in
  let minDate := minimum dates in
  let maxDate := maximum dates in
  {| mf_channels := sortBy channelName channels;
     mf_reviewTypes := sortBy typeName types;
     mf_categories := JSArray.sortStrings categories;
     mf_statuses := sortBy statusName statuses;
     mf_dateRange := {| dr_min := toIsoString minDate; dr_max := toIsoString maxDate |} |}.

(* ------------------------------------------------------------------------- *)
(** ** normalize.ts: listing summaries, sorting, the response *)

(** the [groups] map of [buildListingSummaries] after one review *)
Definition addToGroup (groups : list (Z * (NormalizedReview * list NormalizedReview)))
    (review : NormalizedReview)
    : list (Z * (NormalizedReview * list NormalizedReview)) :=
  let groups1 :=
    if JSMap.has Z.eqb groups (listingId review) then groups
    else JSMap.set Z.eqb groups (listingId review) (review, []) in
  match JSMap.get Z.eqb groups1 (listingId review) with
  | Some (info, rs) =>
      JSMap.set Z.eqb groups1 (listingId review) (info, (rs ++ [review])%list)
  | None => groups1
  end.

Definition groupByListing (reviews : list NormalizedReview)
    : list (Z * (NormalizedReview * list NormalizedReview)) :=
  fold_left addToGroup reviews [].

Definition summarize (group : Z * (NormalizedReview * list NormalizedReview))
    : ListingReviewSummary :=
  let '(_, (info, listingReviews)) := group in
  let normalizedAverage := average (map nr_normalizedRating listingReviews) in
  let sortedByDate :=
    JSArray.sort
      (fun a b => JSNumber.jsub (getTime (submittedAt b)) (getTime (submittedAt a)))
      listingReviews in
  {| ls_listingId := listingId info;
     ls_listingName := listingName info;
     ls_listingSlug := listingSlug info;
     ls_totalReviews := Z.of_nat (List.length listingReviews);
     ls_approvedReviews := countApproved listingReviews;
     lastReviewDate := match sortedByDate with
                       | r :: _ => Some (submittedAt r)
                       | [] => None
                       end;
     ls_averageRating := normalizedAverage;
     ls_ratingScale := NORMALIZED_TARGET_SCALE;
     ls_normalizedAverageRating := normalizedAverage;
     channels := buildChannelBreakdown listingReviews;
     categoryAverages := buildCategoryAverages listingReviews;
     ratingTrend := buildTrend listingReviews |}.

(** the comparator of the final sort of [buildListingSummaries] *)
Definition compareSummaries (a b : ListingReviewSummary) : jsnum :=
  match ls_averageRating a, ls_averageRating b with
  | None, None => JSNumber.ofZ (localeCompare (ls_listingName a) (ls_listingName b))
  | None, Some _ => JSNumber.ofZ 1
  | Some _, None => JSNumber.ofZ (-1)
  | Some x, Some y => JFin (y - x)
  end.

Definition buildListingSummaries (reviews : list NormalizedReview)
    : list ListingReviewSummary :=
  JSArray.sort compareSummaries (map summarize (groupByListing reviews)).

(** [review.normalizedRating ?? -Infinity] *)
Definition ratingOrNegInf (review : NormalizedReview) : jsnum :=
  match nr_normalizedRating review with
  | Some n => JFin n
  | None => JNegInf
  end.

(** the comparator [applySorting] passes to [sort] *)
Definition sortComparator (sort : option string)
    : NormalizedReview -> NormalizedReview -> jsnum :=
  match truthy sort with
  | None =>
      fun a b => JSNumber.jsub (getTime (submittedAt b)) (getTime (submittedAt a))
  | Some s =>
      let parts := JSString.splitOn ":" s in
      let field := nth 0 parts EmptyString in
      let direction := nth_error parts 1 in
      let multiplier :=
        match direction with
        | Some d => if String.eqb d "asc" then 1 else -1
        | None => -1
        end in
      if String.eqb field "rating" then
        fun a b =>
          JSNumber.jmul
            (JSNumber.jmul (JSNumber.jsub (ratingOrNegInf a) (ratingOrNegInf b))
               (JSNumber.ofZ multiplier))
            (JSNumber.ofZ (-1))
      else if String.eqb field "listing" then
        fun a b =>
          JSNumber.jmul (JSNumber.ofZ (localeCompare (listingName a) (listingName b)))
            (JSNumber.ofZ multiplier)
      else if String.eqb field "channel" then
        fun a b =>
          JSNumber.jmul
            (JSNumber.ofZ (localeCompare (channelName (channel a))
                             (channelName (channel b))))
            (JSNumber.ofZ multiplier)
      else
        fun a b =>
          JSNumber.jmul
            (JSNumber.jsub (getTime (submittedAt a)) (getTime (submittedAt b)))
            (JSNumber.ofZ multiplier)
  end.

(** sorts the array [reviews] in place and returns it *)
Definition applySorting (reviews : Heap.ref) (sort : option string)
    : Heap.M (A := NormalizedReview) Heap.ref :=
  Heap.arraySort reviews (sortComparator sort).

(** [corpus] is the result of [getHostawayReviews()], [store] the state of
    the approvals store, [now] the clock, [filters] the value of
    [gatherFiltersFromSearchParams] on the request's query. *)
Definition buildHostawayResponse (corpus : list HostawayReview)
    (store : ApprovalsStore) (now : string) (filters : ReviewFilters)
    : Heap.M (A := NormalizedReview) ReviewsResponse :=
  allNormalized <- Heap.alloc (map (normalizeReview store) corpus) ;;
  filteredReviews <-
    Heap.arrayFilter allNormalized (fun review => matchesFilters review filters) ;;
  sortedReviews <- applySorting filteredReviews (f_sort filters) ;;
  allNow <- Heap.read allNormalized ;;
  sortedNow <- Heap.read sortedReviews ;;
  Heap.ret
    {| meta := {| generatedAt := now; filters := collectMetaFilters allNow |};
       metrics := {| overall := computeMetrics allNow;
                     filtered := computeMetrics sortedNow |};
       listings := buildListingSummaries sortedNow;
       reviews := sortedNow |}.

(** [refreshApprovals] *)
Definition refreshApprovals (corpus : list HostawayReview)
    (store : ApprovalsStore) (now : string) : ApprovalsStore :=
  fold_left
    (fun st review =>
       ensureInitialValue st now (JSString.ofZ (raw_id review))
         (raw_publishOnFlex review))
    corpus store.

End Pipeline.

(** approve/route.ts, [POST]: a body whose [reviewId] is not a non-empty string
    or whose [approved] is not a boolean is refused and the store is left as
    it is; otherwise [approvalsStore.setApproval(reviewId, approved)]. *)
Definition approveEndpoint (store : ApprovalsStore) (now : string)
    (reviewId : option string) (approved : option bool) : ApprovalsStore :=
  match truthy reviewId, approved with
  | Some rid, Some a => setApproval store now rid a
  | _, _ => store
  end.

(** A collation used to run the pipeline on examples: code-unit order. *)
Definition codeUnitCompare (a b : string) : Z :=
  match String.compare a b with
  | Lt => -1
  | Eq => 0
  | Gt => 1
  end.

(** A host used to run the pipeline on examples: it reads no string outside
    the standard format. *)
Definition standardOnly (s : string) : option Z := None.

(* ------------------------------------------------------------------------- *)
(** ** Vocabulary of the properties *)

(** a rating that is [null] or within [[0, 5]] *)
Definition inRange05 (x : option Q) : Prop :=
  match x with
  | None => True
  | Some q => (0 <= q <= 5)%Q
  end.

(** a raw rating that is [null] or within [[0, s]] *)
Definition ratingWithin (r : option Q) (s : Q) : Prop :=
  match r with
  | None => True
  | Some v => (0 <= v <= s)%Q
  end.

(** a scale hint that is absent or positive *)
Definition positiveHint (h : option Q) : Prop :=
  match h with
  | None => True
  | Some s => (0 < s)%Q
  end.

Definition rawCategories (review : HostawayReview) : list HostawayCategoryRating :=
  match raw_reviewCategory review with
  | Some cs => cs
  | None => []
  end.

(** a raw review with every optional field absent *)
Definition bareReview (rid lid : Z) : HostawayReview :=
  {| raw_id := rid; raw_listingId := lid; raw_listingName := None;
     raw_type := None; raw_channel := None; raw_status := None;
     raw_rating := None; raw_ratingScale := None;
     raw_publicReview := None; raw_privateReview := None;
     raw_reviewCategory := None; raw_submittedAt := None;
     raw_guestName := None; raw_managerResponse := None;
     raw_tags := None; raw_publishOnFlex := None |}.

(** [{id: 7453, rating: 9, ratingScale: null,
      reviewCategory: [{category: "cleanliness", rating: 9}]}], the other
    fields taken from [base] *)
Definition scenario7453 (base : HostawayReview) : HostawayReview :=
  {| raw_id := 7453; raw_listingId := raw_listingId base;
     raw_listingName := raw_listingName base;
     raw_type := raw_type base; raw_channel := raw_channel base;
     raw_status := raw_status base;
     raw_rating := Some 9%Q; raw_ratingScale := None;
     raw_publicReview := raw_publicReview base;
     raw_privateReview := raw_privateReview base;
     raw_reviewCategory := Some [mkCategoryRating (Some "cleanliness") (Some 9%Q)];
     raw_submittedAt := raw_submittedAt base;
     raw_guestName := raw_guestName base;
     raw_managerResponse := raw_managerResponse base;
     raw_tags := raw_tags base; raw_publishOnFlex := raw_publishOnFlex base |}.

(** rating 9 with the scale hint 5, and a category rated 150 *)
Definition reviewAboveScale : HostawayReview :=
  {| raw_id := 1; raw_listingId := 1; raw_listingName := Some "Loft";
     raw_type := None; raw_channel := None; raw_status := None;
     raw_rating := Some 9%Q; raw_ratingScale := Some 5%Q;
     raw_publicReview := None; raw_privateReview := None;
     raw_reviewCategory := Some [mkCategoryRating (Some "value") (Some 150%Q)];
     raw_submittedAt := None; raw_guestName := None; raw_managerResponse := None;
     raw_tags := None; raw_publishOnFlex := None |}.

(** source id 7453 with [publishOnFlex: true] *)
Definition review7453Published : HostawayReview :=
  {| raw_id := 7453; raw_listingId := 1; raw_listingName := Some "Loft";
     raw_type := None; raw_channel := None; raw_status := None;
     raw_rating := Some 5%Q; raw_ratingScale := None;
     raw_publicReview := None; raw_privateReview := None;
     raw_reviewCategory := None;
     raw_submittedAt := None; raw_guestName := None; raw_managerResponse := None;
     raw_tags := None; raw_publishOnFlex := Some true |}.

(** the store after the manager hides review ["hostaway-7453"] *)
Definition storeAfterHide : ApprovalsStore :=
  approveEndpoint [] "2024-06-01T00:00:00.000Z" (Some "hostaway-7453") (Some false).

(** a lower-case letter, a digit or a hyphen *)
Definition isSlugChar (c : ascii) : bool := JSString.isLowerAlnum c || isHyphen c.

Fixpoint allChars (p : ascii -> bool) (s : string) : bool :=
  match s with
  | EmptyString => true
  | String c s' => p c && allChars p s'
  end.

Definition startsWithHyphen (s : string) : bool :=
  match s with
  | String c _ => isHyphen c
  | EmptyString => false
  end.

Fixpoint endsWithHyphen (s : string) : bool :=
  match s with
  | EmptyString => false
  | String c EmptyString => isHyphen c
  | String _ s' => endsWithHyphen s'
  end.

(** no hyphen is followed by a hyphen *)
Fixpoint noDoubleHyphen (s : string) : bool :=
  match s with
  | EmptyString => true
  | String c s' => negb (isHyphen c && startsWithHyphen s') && noDoubleHyphen s'
  end.

(** only lower-case alphanumerics and single interior hyphens *)
Definition slugWellFormed (s : string) : bool :=
  allChars isSlugChar s && noDoubleHyphen s
  && negb (startsWithHyphen s) && negb (endsWithHyphen s).

(** a listing whose name has no alphanumeric character *)
Definition reviewBangs : HostawayReview :=
  {| raw_id := 12; raw_listingId := 3; raw_listingName := Some "!!!";
     raw_type := None; raw_channel := None; raw_status := None;
     raw_rating := None; raw_ratingScale := None;
     raw_publicReview := None; raw_privateReview := None;
     raw_reviewCategory := None; raw_submittedAt := None;
     raw_guestName := None; raw_managerResponse := None;
     raw_tags := None; raw_publishOnFlex := None |}.

(** the filter with every predicate unset *)
Definition noFilters : ReviewFilters :=
  {| f_listingId := None; f_listingSlug := None; f_channels := None;
     f_types := None; f_statuses := None; f_approved := None;
     f_minRating := None; f_maxRating := None; f_category := None;
     f_minCategoryRating := None; f_startDate := None; f_endDate := None;
     f_search := None; f_sort := None |}.

Definition withSearch (f : ReviewFilters) (q : option string) : ReviewFilters :=
  {| f_listingId := f_listingId f; f_listingSlug := f_listingSlug f;
     f_channels := f_channels f; f_types := f_types f;
     f_statuses := f_statuses f; f_approved := f_approved f;
     f_minRating := f_minRating f; f_maxRating := f_maxRating f;
     f_category := f_category f; f_minCategoryRating := f_minCategoryRating f;
     f_startDate := f_startDate f; f_endDate := f_endDate f;
     f_search := q; f_sort := f_sort f |}.

Definition withDates (f : ReviewFilters) (startDate endDate : option string)
    : ReviewFilters :=
  {| f_listingId := f_listingId f; f_listingSlug := f_listingSlug f;
     f_channels := f_channels f; f_types := f_types f;
     f_statuses := f_statuses f; f_approved := f_approved f;
     f_minRating := f_minRating f; f_maxRating := f_maxRating f;
     f_category := f_category f; f_minCategoryRating := f_minCategoryRating f;
     f_startDate := startDate; f_endDate := endDate;
     f_search := f_search f; f_sort := f_sort f |}.

Definition withSort (f : ReviewFilters) (sort : option string) : ReviewFilters :=
  {| f_listingId := f_listingId f; f_listingSlug := f_listingSlug f;
     f_channels := f_channels f; f_types := f_types f;
     f_statuses := f_statuses f; f_approved := f_approved f;
     f_minRating := f_minRating f; f_maxRating := f_maxRating f;
     f_category := f_category f; f_minCategoryRating := f_minCategoryRating f;
     f_startDate := f_startDate f; f_endDate := f_endDate f;
     f_search := f_search f; f_sort := sort |}.

(** The search predicate in the words of the specification: every
    white-space-separated term of the query is, ignoring case, a substring of
    the concatenation of the searched fields. *)
Definition allTermsMatch (review : NormalizedReview) (query : string) : bool :=
  forallb (fun term => JSString.includes (haystackOf review) (JSString.toLowerCase term))
          (JSString.words query).

(** a review whose public comment has the words of a query apart *)
Definition reviewGreatStay : HostawayReview :=
  {| raw_id := 21; raw_listingId := 4; raw_listingName := Some "Camden Lock Suites";
     raw_type := Some "guest-to-host"; raw_channel := Some "airbnb";
     raw_status := Some "published";
     raw_rating := Some 5%Q; raw_ratingScale := None;
     raw_publicReview := Some "Great place to stay"; raw_privateReview := None;
     raw_reviewCategory := None; raw_submittedAt := Some "2024-03-12T10:30:00Z";
     raw_guestName := Some "Maya"; raw_managerResponse := None;
     raw_tags := Some ["family"]; raw_publishOnFlex := None |}.

(** reviews without a usable submission timestamp *)
Definition reviewNoDate : HostawayReview := bareReview 31 5.

Definition reviewBadDate : HostawayReview :=
  {| raw_id := 32; raw_listingId := 5; raw_listingName := None;
     raw_type := None; raw_channel := None; raw_status := None;
     raw_rating := None; raw_ratingScale := None;
     raw_publicReview := None; raw_privateReview := None;
     raw_reviewCategory := None; raw_submittedAt := Some "last summer";
     raw_guestName := None; raw_managerResponse := None;
     raw_tags := None; raw_publishOnFlex := None |}.

(** whether a bound is set, as the query parameter reaches the filter *)
Definition boundSet (bound : option string) : Prop := truthy bound <> None.

(** the instant a bound parses to, if any *)
Definition boundInstant (hostParse : string -> option Z) (bound : option string)
    : option Z :=
  parseDate hostParse bound.

Definition epochIso : string := "1970-01-01T00:00:00.000Z".

(** a start bound after the epoch or an end bound before it *)
Definition epochExcluded (hostParse : string -> option Z) (f : ReviewFilters)
    : bool :=
  match boundInstant hostParse (f_startDate f) with
  | Some s => 0 <? s
  | None => false
  end
  || match boundInstant hostParse (f_endDate f) with
     | Some e => e <? 0
     | None => false
     end.


(** every category rating of a review set, in order *)
Definition allCategoryRatings (reviews : list NormalizedReview)
    : list NormalizedCategoryRating :=
  flat_map categoryRatings reviews.

(** the distinct category keys of a review set, in first-seen order *)
Definition observedKeys (reviews : list NormalizedReview) : list string :=
  collectSet String.eqb (map key (allCategoryRatings reviews)).

Definition keyObserved (k : string) (reviews : list NormalizedReview) : Prop :=
  exists c, In c (allCategoryRatings reviews) /\ key c = k.

(** zero present values for the key [k] *)
Definition allValuesNull (k : string) (reviews : list NormalizedReview) : Prop :=
  forall c, In c (allCategoryRatings reviews) -> key c = k ->
            normalizedRating c = None.

(** a review whose only category rating has no value *)
Definition reviewNullCategory : HostawayReview :=
  {| raw_id := 41; raw_listingId := 6; raw_listingName := Some "Kings Cross Studio";
     raw_type := None; raw_channel := None; raw_status := None;
     raw_rating := Some 4%Q; raw_ratingScale := None;
     raw_publicReview := None; raw_privateReview := None;
     raw_reviewCategory := Some [mkCategoryRating (Some "wifi") None];
     raw_submittedAt := None; raw_guestName := None; raw_managerResponse := None;
     raw_tags := None; raw_publishOnFlex := None |}.

(** the order of ratings with [null] below every number: [a] is at least [b] *)
Definition optGe (a b : option Q) : Prop :=
  match a, b with
  | _, None => True
  | None, Some _ => False
  | Some x, Some y => (y <= x)%Q
  end.

Definition ratingGe (a b : NormalizedReview) : Prop :=
  optGe (nr_normalizedRating a) (nr_normalizedRating b).

Definition ratingLe (a b : NormalizedReview) : Prop := ratingGe b a.

Definition hasRating (r : NormalizedReview) : bool :=
  match nr_normalizedRating r with Some _ => true | None => false end.

Definition noRating (r : NormalizedReview) : bool := negb (hasRating r).

(** the contents of an array after [applySorting], the array being the only
    one of the heap *)
Definition sortedBy (hostParse : string -> option Z)
    (localeCompare : string -> string -> Z)
    (sort : option string) (l : list NormalizedReview) : list NormalizedReview :=
  let '(r, h) := applySorting hostParse localeCompare 0%nat sort [l] in
  Heap.contents h r.

(** a review of listing [lid], named [name], rated [r] out of 5 *)
Definition ratedReview (rid lid : Z) (name : string) (r : option Q)
    : HostawayReview :=
  {| raw_id := rid; raw_listingId := lid; raw_listingName := Some name;
     raw_type := None; raw_channel := None; raw_status := None;
     raw_rating := r; raw_ratingScale := Some 5%Q;
     raw_publicReview := None; raw_privateReview := None;
     raw_reviewCategory := None; raw_submittedAt := Some "2024-03-12";
     raw_guestName := None; raw_managerResponse := None;
     raw_tags := None; raw_publishOnFlex := None |}.

(** ratings 3, 5, none, 4 *)
Definition fourReviews (hostParse : string -> option Z) : list NormalizedReview :=
  map (normalizeReview hostParse [])
    [ratedReview 1 1 "Loft" (Some 3%Q); ratedReview 2 1 "Loft" (Some 5%Q);
     ratedReview 3 1 "Loft" None; ratedReview 4 1 "Loft" (Some 4%Q)].

(** two listings with the same average, the later name first *)
Definition twoListings (hostParse : string -> option Z) : list NormalizedReview :=
  map (normalizeReview hostParse [])
    [ratedReview 1 1 "Beta House" (Some (9 # 2)%Q);
     ratedReview 2 2 "Alpha House" (Some (9 # 2)%Q)].

Definition avgGe (a b : ListingReviewSummary) : Prop :=
  optGe (ls_averageRating a) (ls_averageRating b).

Definition hasAverage (s : ListingReviewSummary) : bool :=
  match ls_averageRating s with Some _ => true | None => false end.

Definition noAverage (s : ListingReviewSummary) : bool := negb (hasAverage s).

(** the average is the number [q] *)
Definition averageIs (q : Q) (s : ListingReviewSummary) : bool :=
  match ls_averageRating s with
  | Some x => Qeq_bool x q
  | None => false
  end.

(** [a]'s name is not after [b]'s *)
Definition nameLe (localeCompare : string -> string -> Z)
    (a b : ListingReviewSummary) : Prop :=
  localeCompare (ls_listingName a) (ls_listingName b) <= 0.

(** the order [compareSummaries] implements *)
Definition summaryLe (localeCompare : string -> string -> Z)
    (a b : ListingReviewSummary) : Prop :=
  match ls_averageRating a, ls_averageRating b with
  | None, None => nameLe localeCompare a b
  | None, Some _ => False
  | Some _, None => True
  | Some x, Some y => (y <= x)%Q
  end.

(** the order in which the listings of a working set are first seen *)
Definition listingsSeen (reviews : list NormalizedReview) : list Z :=
  collectSet Z.eqb (map listingId reviews).

(** a bound of the rounding error of the two binary64 operations of
    [normalizeValueToTarget] on the exact result [v] *)
Definition roundingError (v : Q) : Q := (Qabs v * 2 ^ (-51) + 2 ^ (-1072))%Q.

(** the binary64 number nearest to 0.055 *)
Definition near0055 : Q := (7926335344172073 # 144115188075855872)%Q.

(** a raw review rated [r], with no scale hint *)
Definition reviewRated (r : Q) : HostawayReview :=
  {| raw_id := 1; raw_listingId := 1; raw_listingName := Some "Loft";
     raw_type := None; raw_channel := None; raw_status := None;
     raw_rating := Some r; raw_ratingScale := None;
     raw_publicReview := None; raw_privateReview := None;
     raw_reviewCategory := None; raw_submittedAt := None;
     raw_guestName := None; raw_managerResponse := None;
     raw_tags := None; raw_publishOnFlex := None |}.

(* ------------------------------------------------------------------------- *)
(** * Properties *)

(** ** The built-ins on examples *)

Example ofZ_7453 : JSString.ofZ 7453 = "7453".
Proof. reflexivity. Qed.

Example split_sort : JSString.splitOn ":" "rating:desc" = ["rating"; "desc"].
Proof. reflexivity. Qed.

Example words_ex : JSString.words "  great   stay " = ["great"; "stay"].
Proof. reflexivity. Qed.

Example trim_ex : JSString.trim "  a b  " = "a b".
Proof. reflexivity. Qed.

Example epoch_iso : JSDate.toISOString 0 = "1970-01-01T00:00:00.000Z".
Proof. reflexivity. Qed.

Example iso_roundtrip :
  JSDate.parseStandard (JSDate.toISOString 1710239400123) = Some 1710239400123.
Proof. vm_compute. reflexivity. Qed.

Example iso_example :
  JSDate.toISOString 1710239400123 = "2024-03-12T10:30:00.123Z".
Proof. vm_compute. reflexivity. Qed.

Example date_only : JSDate.parseStandard "2024-12-31" = Some 1735603200000.
Proof. vm_compute. reflexivity. Qed.

(** midnight at one hour east of Greenwich is 23:00 UTC of the day before *)
Example date_offset :
  JSDate.parseStandard "2024-01-01T00:00:00+01:00" = Some 1704063600000
  /\ JSDate.toISOString 1704063600000 = "2023-12-31T23:00:00.000Z".
Proof. split; vm_compute; reflexivity. Qed.

(** strings left to the host: a date-time without offset, another
    separator, a day that the month does not have, words *)
Example date_host (hostParse : string -> option Z) :
  JSDate.parse hostParse "2024-03-12T10:30:00" = hostParse "2024-03-12T10:30:00"
  /\ JSDate.parse hostParse "2024-03-12 10:30:00" = hostParse "2024-03-12 10:30:00"
  /\ JSDate.parse hostParse "2024-02-30" = hostParse "2024-02-30"
  /\ JSDate.parse hostParse "not a date" = hostParse "not a date".
Proof. repeat split. Qed.

Example toFixed2_ex : JSNumber.toFixed2 ((9 / 10) * 5)%Q = (9 # 2)%Q.
Proof. reflexivity. Qed.

(** 0.1 + 0.2 in binary64 *)
Example add_ex :
  JSNumber.add (JSNumber.fl (1 # 10)) (JSNumber.fl (2 # 10))
  = (1351079888211149 # 4503599627370496)%Q.
Proof. vm_compute. reflexivity. Qed.

(** [Number((88.5 / 100 * 5).toFixed(2))] is the number nearest to 4.42 *)
Example roundTo2_ex :
  JSNumber.roundTo2 (JSNumber.mul (JSNumber.div (177 # 2) 100) 5)
  = JSNumber.fl (442 # 100).
Proof. vm_compute. reflexivity. Qed.

(* ------------------------------------------------------------------------- *)
(** ** Numbers *)

Section NumberFacts.

Local Open Scope Q_scope.

Lemma leb_true (a b : Q) : JSNumber.leb a b = true <-> a <= b.
Proof. apply Qle_bool_iff. Qed.

Lemma leb_false (a b : Q) : JSNumber.leb a b = false <-> b < a.
Proof.
  unfold JSNumber.leb. split; intros H.
  - apply Qnot_le_lt. intros L. apply Qle_bool_iff in L. congruence.
  - destruct (Qle_bool a b) eqn:E; [|reflexivity].
    apply Qle_bool_iff in E. lra.
Qed.

Lemma gtb_true (a b : Q) : JSNumber.gtb a b = true <-> b < a.
Proof. unfold JSNumber.gtb. rewrite negb_true_iff. apply leb_false. Qed.

Lemma pow2_pos (e : Z) : 0 < 2 ^ e.
Proof. apply Qpower_0_lt. reflexivity. Qed.

Lemma pow2_Z (a : Z) : (0 <= a)%Z -> 2 ^ a == inject_Z (2 ^ a).
Proof. intros H. now rewrite Zpower_Qpower. Qed.

(** [roundHalfEven y] is an integer nearest to [y]. *)
Lemma roundHalfEven_close (y : Q) :
  Qabs (inject_Z (JSNumber.roundHalfEven y) - y) <= 1 # 2.
Proof.
  unfold JSNumber.roundHalfEven.
  pose proof (Qfloor_le y) as H1. pose proof (Qlt_floor y) as H2.
  rewrite inject_Z_plus in H2. change (inject_Z 1) with 1 in H2.
  destruct (Qcompare_spec (y - inject_Z (Qfloor y)) (1 # 2)) as [E|L|G];
    [destruct (Z.even (Qfloor y))| |];
    rewrite ?inject_Z_plus; change (inject_Z 1) with 1;
    apply Qabs_Qle_condition; split; lra.
Qed.

Lemma roundHalfEven_le (y : Q) (K : Z) :
  y <= inject_Z K -> (JSNumber.roundHalfEven y <= K)%Z.
Proof.
  intros H. unfold JSNumber.roundHalfEven.
  pose proof (Qfloor_le y) as H1.
  assert (F : (Qfloor y <= K)%Z) by (rewrite Zle_Qle; lra).
  destruct (Qcompare_spec (y - inject_Z (Qfloor y)) (1 # 2)) as [E|L|G];
    [destruct (Z.even (Qfloor y))| |]; try exact F.
  all: assert (F' : (Qfloor y < K)%Z) by (rewrite Zlt_Qlt; lra); lia.
Qed.

Lemma roundHalfEven_ge (y : Q) (K : Z) :
  inject_Z K <= y -> (K <= JSNumber.roundHalfEven y)%Z.
Proof.
  intros H. unfold JSNumber.roundHalfEven.
  assert (F : (K <= Qfloor y)%Z).
  { rewrite <- (Qfloor_Z K). now apply Qfloor_resp_le. }
  destruct (Qcompare (y - inject_Z (Qfloor y)) (1 # 2));
    [destruct (Z.even (Qfloor y))| |]; lia.
Qed.

Lemma floorLog2_le (x : Q) : 0 < x -> 2 ^ JSNumber.floorLog2 x <= x.
Proof.
  intros Hx. unfold JSNumber.floorLog2.
  destruct (Qle_bool _ x) eqn:E; [now apply Qle_bool_iff|]. clear E.
  destruct x as [n d]. cbn [Qnum Qden].
  assert (Hn : (0 < n)%Z) by (unfold Qlt in Hx; simpl in Hx; lia).
  pose proof (Z.log2_spec n Hn) as [Ln _].
  pose proof (Z.log2_spec (Zpos d) eq_refl) as [_ Ld].
  pose proof (Z.log2_nonneg n) as Na. pose proof (Z.log2_nonneg (Zpos d)) as Nb.
  set (a := Z.log2 n) in *. set (b := Z.log2 (Zpos d)) in *.
  replace (a - b - 1)%Z with (a - Z.succ b)%Z by lia.
  rewrite Qpower_minus by discriminate.
  rewrite (pow2_Z a Na), (pow2_Z (Z.succ b)) by lia.
  rewrite (Qmake_Qdiv n d).
  assert (Pd : 0 < inject_Z (Zpos d)) by reflexivity.
  assert (Pb : 0 < inject_Z (2 ^ Z.succ b)).
  { rewrite <- pow2_Z by lia. apply pow2_pos. }
  apply Qle_shift_div_l; [exact Pd|].
  unfold Qdiv. rewrite <- Qmult_assoc, (Qmult_comm (/ _)), Qmult_assoc.
  apply Qle_shift_div_r; [exact Pb|].
  rewrite <- !inject_Z_mult, <- Zle_Qle. nia.
Qed.

Lemma floorLog2_lt (x : Q) : 0 < x -> x < 2 ^ (JSNumber.floorLog2 x + 1).
Proof.
  intros Hx. unfold JSNumber.floorLog2.
  destruct (Qle_bool _ x) eqn:E.
  - clear E. destruct x as [n d]. cbn [Qnum Qden].
    assert (Hn : (0 < n)%Z) by (unfold Qlt in Hx; simpl in Hx; lia).
    pose proof (Z.log2_spec n Hn) as [_ Ln].
    pose proof (Z.log2_spec (Zpos d) eq_refl) as [Ld _].
    pose proof (Z.log2_nonneg n) as Na. pose proof (Z.log2_nonneg (Zpos d)) as Nb.
    set (a := Z.log2 n) in *. set (b := Z.log2 (Zpos d)) in *.
    replace (a - b + 1)%Z with (Z.succ a - b)%Z by lia.
    rewrite Qpower_minus by discriminate.
    rewrite (pow2_Z b Nb), (pow2_Z (Z.succ a)) by lia.
    rewrite (Qmake_Qdiv n d).
    assert (Pd : 0 < inject_Z (Zpos d)) by reflexivity.
    assert (Pb : 0 < inject_Z (2 ^ b)).
    { rewrite <- pow2_Z by lia. apply pow2_pos. }
    apply Qlt_shift_div_r; [exact Pd|].
    unfold Qdiv. rewrite <- Qmult_assoc, (Qmult_comm (/ _)), Qmult_assoc.
    apply Qlt_shift_div_l; [exact Pb|].
    rewrite <- !inject_Z_mult, <- Zlt_Qlt. nia.
  - replace (_ - 1 + 1)%Z with (Z.log2 (Qnum x) - Z.log2 (Z.pos (Qden x)))%Z by lia.
    apply Qnot_le_lt. intros L. apply Qle_bool_iff in L. congruence.
Qed.

Lemma floorLog2_unique (x : Q) (k : Z) :
  2 ^ k <= x -> x < 2 ^ (k + 1) -> JSNumber.floorLog2 x = k.
Proof.
  intros L U.
  assert (Hx : 0 < x) by (pose proof (pow2_pos k); lra).
  pose proof (floorLog2_le x Hx) as L'. pose proof (floorLog2_lt x Hx) as U'.
  assert (A : 2 ^ k < 2 ^ (JSNumber.floorLog2 x + 1)) by lra.
  assert (B : 2 ^ JSNumber.floorLog2 x < 2 ^ (k + 1)) by lra.
  apply Qpower_lt_compat_l_inv in A; [|reflexivity].
  apply Qpower_lt_compat_l_inv in B; [|reflexivity].
  lia.
Qed.

Lemma floorLog2_comp (x y : Q) :
  0 < x -> x == y -> JSNumber.floorLog2 x = JSNumber.floorLog2 y.
Proof.
  intros Hx E. symmetry. apply floorLog2_unique.
  - rewrite <- E. now apply floorLog2_le.
  - rewrite <- E. now apply floorLog2_lt.
Qed.

Lemma roundHalfEven_comp (x y : Q) :
  x == y -> JSNumber.roundHalfEven x = JSNumber.roundHalfEven y.
Proof.
  intros E. unfold JSNumber.roundHalfEven.
  rewrite (Qfloor_comp _ _ E).
  assert (C : Qcompare (x - inject_Z (Qfloor y)) (1 # 2)
              = Qcompare (y - inject_Z (Qfloor y)) (1 # 2)).
  { apply Qcompare_comp; [|reflexivity]. now rewrite E. }
  now rewrite C.
Qed.

(** [fl] depends on the value of its argument only, not on the fraction
    that denotes it. *)
Lemma fl_comp (x y : Q) : x == y -> JSNumber.fl x = JSNumber.fl y.
Proof.
  intros E. unfold JSNumber.fl.
  assert (Hb : Qeq_bool x 0 = Qeq_bool y 0) by (now rewrite E).
  rewrite <- Hb. destruct (Qeq_bool x 0) eqn:E0; [reflexivity|].
  assert (Nx : ~ x == 0) by (intros X; apply Qeq_bool_iff in X; congruence).
  assert (Px : 0 < Qabs x).
  { apply Qabs_case; intros; apply Qnot_le_lt; intros Q; apply Nx; lra. }
  assert (Ee : JSNumber.ulpExp x = JSNumber.ulpExp y).
  { unfold JSNumber.ulpExp. rewrite (floorLog2_comp (Qabs x) (Qabs y) Px); [reflexivity|].
    now rewrite E. }
  cbv zeta. rewrite <- Ee.
  rewrite (roundHalfEven_comp (x / 2 ^ JSNumber.ulpExp x) (y / 2 ^ JSNumber.ulpExp x));
    [reflexivity | unfold Qdiv; apply Qmult_comp; [exact E | reflexivity]].
Qed.

(** [fl x] is within half a unit in the last place of [x]. *)
Lemma fl_close (x : Q) :
  Qabs (JSNumber.fl x - x) <= 2 ^ JSNumber.ulpExp x * (1 # 2).
Proof.
  unfold JSNumber.fl. pose proof (pow2_pos (JSNumber.ulpExp x)) as P.
  destruct (Qeq_bool x 0) eqn:E.
  - apply Qeq_bool_iff in E. apply Qabs_Qle_condition. split; lra.
  - cbv zeta. rewrite Qred_correct.
    set (p := 2 ^ JSNumber.ulpExp x) in *.
    pose proof (roundHalfEven_close (x / p)) as C.
    assert (Ex : x == x / p * p) by (field; lra).
    set (y := x / p) in *.
    set (m := inject_Z (JSNumber.roundHalfEven y)) in *.
    apply Qabs_Qle_condition in C as [C1 C2].
    apply Qabs_Qle_condition. split; nra.
Qed.

Lemma fl_zero (x : Q) : x == 0 -> JSNumber.fl x = 0.
Proof.
  intros E. unfold JSNumber.fl. apply Qeq_bool_iff in E. now rewrite E.
Qed.

(** The error of one rounding: relative 2^-53, or half the least binary64
    number. *)
Lemma fl_error (x : Q) :
  Qabs (JSNumber.fl x - x) <= Qabs x * 2 ^ (-53) + 2 ^ (-1075).
Proof.
  destruct (Qeq_dec x 0) as [E|N].
  - rewrite (fl_zero x E). pose proof (Qabs_nonneg x).
    assert (Qabs (0 - x) == 0).
    { apply Qabs_case; intros; lra. }
    assert (0 < 2 ^ (-53)) by apply pow2_pos.
    assert (0 < 2 ^ (-1075)) by apply pow2_pos. nra.
  - eapply Qle_trans; [apply fl_close|].
    assert (Px : 0 < Qabs x).
    { apply Qabs_case; intros; lra. }
    pose proof (floorLog2_le (Qabs x) Px) as L.
    unfold JSNumber.ulpExp.
    destruct (Z.max_spec (JSNumber.floorLog2 (Qabs x) - 52) (-1074)) as [[_ ->]|[_ ->]].
    + assert (E : 2 ^ (-1074) * (1 # 2) == 2 ^ (-1075)) by reflexivity.
      rewrite E. assert (0 < 2 ^ (-53)) by apply pow2_pos. nra.
    + rewrite Qpower_minus by discriminate.
      assert (E : / 2 ^ 52 * (1 # 2) == 2 ^ (-53)) by reflexivity.
      unfold Qdiv. rewrite <- Qmult_assoc, E. assert (0 < 2 ^ (-53)) by apply pow2_pos.
      assert (0 < 2 ^ (-1075)) by apply pow2_pos. nra.
Qed.

Lemma fl_nonneg (x : Q) : 0 <= x -> 0 <= JSNumber.fl x.
Proof.
  intros H. unfold JSNumber.fl. destruct (Qeq_bool x 0); [lra|].
  cbv zeta. rewrite Qred_correct.
  pose proof (pow2_pos (JSNumber.ulpExp x)) as P.
  assert (R : (0 <= JSNumber.roundHalfEven (x / 2 ^ JSNumber.ulpExp x))%Z).
  { apply roundHalfEven_ge. change (inject_Z 0) with 0.
    apply Qle_shift_div_l; [exact P | lra]. }
  rewrite Zle_Qle in R. change (inject_Z 0) with 0 in R. nra.
Qed.

(** Rounding does not cross an integer below 2^53. *)
Lemma fl_le_int (x : Q) (c : Z) :
  (0 <= c < 2 ^ 53)%Z -> x <= inject_Z c -> JSNumber.fl x <= inject_Z c.
Proof.
  intros Hc Hx.
  assert (C0 : 0 <= inject_Z c) by (change 0 with (inject_Z 0); rewrite <- Zle_Qle; lia).
  unfold JSNumber.fl. destruct (Qeq_bool x 0) eqn:E0; [exact C0|].
  cbv zeta. rewrite Qred_correct.
  pose proof (pow2_pos (JSNumber.ulpExp x)) as P.
  set (e := JSNumber.ulpExp x) in *.
  destruct (Qlt_le_dec 0 x) as [Px|Nx].
  2:{ assert (R : (JSNumber.roundHalfEven (x / 2 ^ e) <= 0)%Z).
      { apply roundHalfEven_le. change (inject_Z 0) with 0.
        apply Qle_shift_div_r; [exact P | lra]. }
      rewrite Zle_Qle in R. change (inject_Z 0) with 0 in R. nra. }
  destruct (Z_le_gt_dec e 0) as [Le|Ge].
  - assert (Hp : 2 ^ e == / inject_Z (2 ^ (- e))).
    { replace e with (- - e)%Z at 1 by lia. rewrite Qpower_opp, pow2_Z by lia.
      reflexivity. }
    assert (Pn : 0 < inject_Z (2 ^ (- e))).
    { rewrite <- pow2_Z by lia. apply pow2_pos. }
    assert (R : (JSNumber.roundHalfEven (x / 2 ^ e) <= c * 2 ^ (- e))%Z).
    { apply roundHalfEven_le. rewrite inject_Z_mult, Hp.
      unfold Qdiv. rewrite Qinv_involutive.
      apply Qmult_le_compat_r; lra. }
    rewrite Zle_Qle, inject_Z_mult in R.
    set (m := inject_Z (JSNumber.roundHalfEven _)) in *.
    rewrite Hp. apply Qle_shift_div_r; [exact Pn | exact R].
  - exfalso.
    assert (A : Qabs x == x) by (apply Qabs_pos; lra).
    assert (Pa : 0 < Qabs x) by lra.
    pose proof (floorLog2_le (Qabs x) Pa) as L.
    subst e. unfold JSNumber.ulpExp in Ge.
    assert (K : (53 <= JSNumber.floorLog2 (Qabs x))%Z) by lia.
    assert (B : 2 ^ 53 <= 2 ^ JSNumber.floorLog2 (Qabs x))
      by (apply Qpower_le_compat_l; [exact K | discriminate]).
    assert (C : inject_Z c < 2 ^ 53).
    { change (2 ^ 53) with (inject_Z (2 ^ 53)). rewrite <- Zlt_Qlt. lia. }
    lra.
Qed.

Lemma toFixed2_comp (x y : Q) : x == y -> JSNumber.toFixed2 x = JSNumber.toFixed2 y.
Proof.
  intros E. unfold JSNumber.toFixed2.
  assert (Hb : Qle_bool 0 x = Qle_bool 0 y) by (rewrite E; reflexivity).
  rewrite Hb. destruct (Qle_bool 0 y); apply Qred_complete; rewrite E; reflexivity.
Qed.

Lemma floor_half_close (x : Q) :
  -(1 # 2) < inject_Z (Qfloor (x + (1 # 2))) - x <= 1 # 2.
Proof.
  pose proof (Qfloor_le (x + (1 # 2))) as H1.
  pose proof (Qlt_floor (x + (1 # 2))) as H2.
  rewrite inject_Z_plus in H2. change (inject_Z 1) with 1 in H2.
  split; lra.
Qed.

Ltac over100 := unfold Qdiv; change (/ 100) with (1 # 100).

(** [toFixed2 x] is a multiple of 1/100 at distance at most 1/200 from [x],
    the one away from zero when [x] is half-way between two. *)
Lemma toFixed2_value (x : Q) :
  exists n : Z, JSNumber.toFixed2 x = Qred (inject_Z n / 100) /\
                Qabs (inject_Z n / 100 - x) <= 1 # 200 /\
                (Qabs (inject_Z n / 100 - x) == 1 # 200 ->
                 Qabs x < Qabs (inject_Z n / 100)).
Proof.
  unfold JSNumber.toFixed2. destruct (Qle_bool 0 x) eqn:E.
  - apply Qle_bool_iff in E.
    exists (Qfloor (x * 100 + (1 # 2))). split; [reflexivity|].
    pose proof (floor_half_close (x * 100)) as [H1 H2].
    set (n := inject_Z (Qfloor (x * 100 + (1 # 2)))) in *.
    split.
    + apply Qabs_Qle_condition. over100. split; lra.
    + revert H1 H2. over100. intros H1 H2.
      do 3 (apply Qabs_case; intros); lra.
  - assert (N : x < 0).
    { apply Qnot_le_lt. intros L. apply Qle_bool_iff in L. congruence. }
    exists (- Qfloor (- x * 100 + (1 # 2)))%Z.
    split; [apply Qred_complete; rewrite inject_Z_opp; field|].
    pose proof (floor_half_close (- x * 100)) as [H1 H2].
    rewrite inject_Z_opp.
    set (n := inject_Z (Qfloor (- x * 100 + (1 # 2)))) in *.
    split.
    + apply Qabs_Qle_condition. over100. split; lra.
    + revert H1 H2. over100. intros H1 H2.
      do 3 (apply Qabs_case; intros); lra.
Qed.

Lemma toFixed2_range (x : Q) : 0 <= x <= 5 -> 0 <= JSNumber.toFixed2 x <= 5.
Proof.
  intros [H0 H5]. unfold JSNumber.toFixed2.
  apply Qle_bool_iff in H0 as Hb. rewrite Hb. rewrite Qred_correct.
  assert (L : (0 <= Qfloor (x * 100 + (1 # 2)))%Z).
  { change 0%Z with (Qfloor 0). apply Qfloor_resp_le. lra. }
  assert (U : (Qfloor (x * 100 + (1 # 2)) <= 500)%Z).
  { change 500%Z with (Qfloor (500 + (1 # 2))). apply Qfloor_resp_le. lra. }
  rewrite Zle_Qle in L, U.
  change (inject_Z 0) with 0 in L. change (inject_Z 500) with 500 in U.
  over100. split; lra.
Qed.

Lemma fl_range (x : Q) (c : Z) :
  (0 <= c < 2 ^ 53)%Z -> 0 <= x <= inject_Z c -> 0 <= JSNumber.fl x <= inject_Z c.
Proof. intros Hc [H0 H1]. split; [now apply fl_nonneg | now apply fl_le_int]. Qed.

Lemma detectScale_no_hint (r : Q) :
  detectScale (Some r) None =
    if JSNumber.leb r 5 then 5
    else if JSNumber.leb r 10 then 10
    else if JSNumber.leb r 20 then 20
    else if JSNumber.leb r 100 then 100 else 5.
Proof. reflexivity. Qed.

Lemma detectScale_positive (r h : option Q) : 0 < detectScale r h.
Proof.
  unfold detectScale. destruct h as [s|].
  - destruct (JSNumber.gtb s 0) eqn:E.
    + now apply gtb_true in E.
    + destruct r as [r|]; [|reflexivity].
      repeat (destruct (JSNumber.leb r _)); reflexivity.
  - destruct r as [r|]; [|reflexivity].
    repeat (destruct (JSNumber.leb r _)); reflexivity.
Qed.

Lemma detectScale_covers (r : Q) : r <= 100 -> r <= detectScale (Some r) None.
Proof.
  intros H. rewrite detectScale_no_hint.
  destruct (JSNumber.leb r 5) eqn:E5; [now apply leb_true in E5|].
  destruct (JSNumber.leb r 10) eqn:E10; [now apply leb_true in E10|].
  destruct (JSNumber.leb r 20) eqn:E20; [now apply leb_true in E20|].
  destruct (JSNumber.leb r 100) eqn:E100; [now apply leb_true in E100|].
  apply leb_false in E100. lra.
Qed.

Lemma normalizeValueToTarget_range (r : option Q) (s : Q) :
  ratingWithin r s -> inRange05 (normalizeValueToTarget r s NORMALIZED_TARGET_SCALE).
Proof.
  destruct r as [v|]; simpl; [|trivial].
  intros [H0 Hs]. destruct (JSNumber.leb s 0) eqn:E; simpl; [trivial|].
  apply leb_false in E.
  unfold JSNumber.roundTo2, JSNumber.mul, JSNumber.div, NORMALIZED_TARGET_SCALE.
  assert (D0 : 0 <= v / s) by (apply Qle_shift_div_l; lra).
  assert (D1 : v / s <= 1) by (apply Qle_shift_div_r; lra).
  pose proof (fl_range (v / s) 1 ltac:(lia) (conj D0 D1)) as [Q0 Q1].
  change (inject_Z 1) with 1 in Q1.
  apply (fl_range _ 5); [lia|]. apply toFixed2_range.
  apply (fl_range _ 5); [lia|]. change (inject_Z 5) with 5. split; lra.
Qed.

(** The two roundings of [(r / s) * 5] stay within [roundingError] of the
    exact value. *)
Lemma scaled_error (r s : Q) :
  Qabs (JSNumber.mul (JSNumber.div r s) 5 - r * 5 / s) <= roundingError (r * 5 / s).
Proof.
  unfold JSNumber.mul, JSNumber.div, roundingError.
  assert (Eq : r * 5 / s == r / s * 5) by (unfold Qdiv; ring).
  rewrite Eq. set (q := r / s).
  pose proof (fl_error q) as E1.
  pose proof (fl_error (JSNumber.fl q * 5)) as E2.
  set (q1 := JSNumber.fl q) in *. set (x := JSNumber.fl (q1 * 5)) in *.
  assert (T : Qabs q1 <= Qabs q + Qabs (q1 - q)).
  { eapply Qle_trans; [|apply Qabs_triangle].
    assert (X : q + (q1 - q) == q1) by ring. rewrite X. lra. }
  assert (M1 : Qabs (q1 * 5) == Qabs q1 * 5) by (rewrite Qabs_Qmult; reflexivity).
  assert (M2 : Qabs (q * 5) == Qabs q * 5) by (rewrite Qabs_Qmult; reflexivity).
  assert (G : Qabs (x - q * 5) <= Qabs (x - q1 * 5) + Qabs (q1 - q) * 5).
  { assert (X : x - q * 5 == (x - q1 * 5) + (q1 - q) * 5) by ring.
    rewrite X. eapply Qle_trans; [apply Qabs_triangle|].
    rewrite (Qabs_Qmult (q1 - q) 5). change (Qabs 5) with 5. lra. }
  rewrite M1 in E2. rewrite M2.
  pose proof (Qabs_nonneg q) as A0.
  set (A := Qabs q) in *. set (A1 := Qabs q1) in *.
  set (d1 := Qabs (q1 - q)) in *. set (d2 := Qabs (x - q1 * 5)) in *.
  set (g := Qabs (x - q * 5)) in *.
  assert (U0 : 0 < 2 ^ (-53)) by apply pow2_pos.
  assert (U1 : 2 ^ (-53) <= 1 # 8) by discriminate.
  assert (U2 : 2 ^ (-51) == 2 ^ (-53) * 4) by reflexivity.
  assert (N0 : 0 < 2 ^ (-1075)) by apply pow2_pos.
  assert (N2 : 2 ^ (-1072) == 2 ^ (-1075) * 8) by reflexivity.
  rewrite U2, N2.
  set (u := 2 ^ (-53)) in *. set (n := 2 ^ (-1075)) in *.
  nra.
Qed.

End NumberFacts.

(* ------------------------------------------------------------------------- *)
(** ** Scale detection and the normalized rating *)

Section Ratings.

Local Open Scope Q_scope.

Variable hostParse : string -> option Z.

(** C8, as stated, fails.  The rating 88.5 is read on scale 100; 88.5 * 5 /
    100 is 4.425, which rounded to two decimals is 4.43, and the normalized
    rating is the binary64 number nearest to 4.42.  The binary64 number
    nearest to 0.055 is read on scale 5; it is nearer to 0.06 than to 0.05,
    and the normalized rating is the binary64 number nearest to 0.05. *)
Lemma C8_counterexample :
  (ratingScale (normalizeReview standardOnly [] (reviewRated (177 # 2))) = 100 /\
   (177 # 2) * 5 / 100 == 4425 # 1000 /\
   JSNumber.toFixed2 ((177 # 2) * 5 / 100) = 443 # 100 /\
   nr_normalizedRating (normalizeReview standardOnly [] (reviewRated (177 # 2)))
   = Some (JSNumber.fl (442 # 100)) /\
   JSNumber.fl (442 # 100) < JSNumber.fl (443 # 100)) /\
  (JSNumber.fl near0055 = near0055 /\
   ratingScale (normalizeReview standardOnly [] (reviewRated near0055)) = 5 /\
   Qabs ((6 # 100) - near0055 * 5 / 5) < Qabs ((5 # 100) - near0055 * 5 / 5) /\
   nr_normalizedRating (normalizeReview standardOnly [] (reviewRated near0055))
   = Some (JSNumber.fl (5 # 100)) /\
   JSNumber.fl (5 # 100) < JSNumber.fl (6 # 100)).
Proof.
  repeat split; vm_compute; reflexivity.
Qed.

(** C8, amended.  With no scale hint the scale is classified by the
    magnitude of the raw value (at most 5: scale 5; at most 10: scale 10; at
    most 20: scale 20; at most 100: scale 100; above 100: scale 5).  The
    normalized rating is the binary64 number nearest to a decimal n/100 with
    two places: the one nearest to the binary64 product (value / scale) * 5,
    a tie going away from zero, hence within 1/200 plus the rounding error
    of that product (at most 2^-51 of its size, plus 2^-1072) of the exact
    value * 5 / scale; it is value * 5 / scale rounded to two decimals
    whenever that rounding is not within the rounding error of a tie.  The
    raw review with id 7453, rating 9, no scale hint and the single category
    rating cleanliness = 9 normalizes to scale 10, rating 4.5 and category
    rating 4.5, whatever its other fields and whatever the approvals store
    holds. *)
Theorem C8_scale_by_magnitude_and_rounding (r : Q) :
  let s := detectScale (Some r) None in
  (r <= 5 -> s = 5) /\
  (5 < r <= 10 -> s = 10) /\
  (10 < r <= 20 -> s = 20) /\
  (20 < r <= 100 -> s = 100) /\
  (100 < r -> s = 5) /\
  (exists n : Z,
      normalizeValueToTarget (Some r) s NORMALIZED_TARGET_SCALE
      = Some (JSNumber.fl (inject_Z n / 100)) /\
      Qabs (inject_Z n / 100 - JSNumber.mul (JSNumber.div r s) 5) <= 1 # 200 /\
      (Qabs (inject_Z n / 100 - JSNumber.mul (JSNumber.div r s) 5) == 1 # 200 ->
       Qabs (JSNumber.mul (JSNumber.div r s) 5) < Qabs (inject_Z n / 100)) /\
      Qabs (inject_Z n / 100 - r * 5 / s) <= (1 # 200) + roundingError (r * 5 / s) /\
      forall m : Z,
        Qabs (inject_Z m / 100 - r * 5 / s) < (1 # 200) - roundingError (r * 5 / s) ->
        n = m) /\
  (forall (store : ApprovalsStore) (base : HostawayReview),
      let n := normalizeReview hostParse store (scenario7453 base) in
      ratingScale n = 10 /\
      nr_normalizedRating n = Some (9 # 2) /\
      map (fun c => (key c, rating c, scale c, normalizedRating c))
          (categoryRatings n)
        = [("cleanliness"%string, Some 9, 10, Some (9 # 2))]).
Proof.
  intros s.
  assert (Hs : 0 < s) by apply detectScale_positive.
  assert (Hn : exists n : Z,
      normalizeValueToTarget (Some r) s NORMALIZED_TARGET_SCALE
      = Some (JSNumber.fl (inject_Z n / 100)) /\
      Qabs (inject_Z n / 100 - JSNumber.mul (JSNumber.div r s) 5) <= 1 # 200 /\
      (Qabs (inject_Z n / 100 - JSNumber.mul (JSNumber.div r s) 5) == 1 # 200 ->
       Qabs (JSNumber.mul (JSNumber.div r s) 5) < Qabs (inject_Z n / 100)) /\
      Qabs (inject_Z n / 100 - r * 5 / s) <= (1 # 200) + roundingError (r * 5 / s) /\
      forall m : Z,
        Qabs (inject_Z m / 100 - r * 5 / s) < (1 # 200) - roundingError (r * 5 / s) ->
        n = m).
  { destruct (toFixed2_value (JSNumber.mul (JSNumber.div r s) 5)) as [n [Hv [Hd Ht]]].
    pose proof (scaled_error r s) as He.
    assert (Hc : Qabs (inject_Z n / 100 - r * 5 / s)
                 <= (1 # 200) + roundingError (r * 5 / s)).
    { assert (X : inject_Z n / 100 - r * 5 / s
                  == (inject_Z n / 100 - JSNumber.mul (JSNumber.div r s) 5)
                     + (JSNumber.mul (JSNumber.div r s) 5 - r * 5 / s)) by ring.
      rewrite X. eapply Qle_trans; [apply Qabs_triangle|]. lra. }
    exists n. split; [|split; [exact Hd|split; [exact Ht|split; [exact Hc|]]]].
    - unfold normalizeValueToTarget, NORMALIZED_TARGET_SCALE.
      apply leb_false in Hs. rewrite Hs. unfold JSNumber.roundTo2. rewrite Hv.
      f_equal. apply fl_comp. apply Qred_correct.
    - intros m Hm.
      apply Qabs_Qle_condition in Hc as [C1 C2].
      apply Qabs_Qlt_condition in Hm as [M1 M2].
      assert (D1 : inject_Z n - inject_Z m < 1).
      { unfold Qdiv in *. change (/ 100) with (1 # 100) in *. lra. }
      assert (D2 : inject_Z m - inject_Z n < 1).
      { unfold Qdiv in *. change (/ 100) with (1 # 100) in *. lra. }
      assert (Z1 : (n + - m < 1)%Z).
      { rewrite Zlt_Qlt, inject_Z_plus, inject_Z_opp. change (inject_Z 1) with 1. lra. }
      assert (Z2 : (m + - n < 1)%Z).
      { rewrite Zlt_Qlt, inject_Z_plus, inject_Z_opp. change (inject_Z 1) with 1. lra. }
      lia. }
  subst s. revert Hn. rewrite detectScale_no_hint.
  destruct (JSNumber.leb r 5) eqn:E5;
    [apply leb_true in E5 | apply leb_false in E5;
     destruct (JSNumber.leb r 10) eqn:E10;
       [apply leb_true in E10 | apply leb_false in E10;
        destruct (JSNumber.leb r 20) eqn:E20;
          [apply leb_true in E20 | apply leb_false in E20;
           destruct (JSNumber.leb r 100) eqn:E100;
             [apply leb_true in E100 | apply leb_false in E100]]]].
  all: intros Hn.
  all: repeat (split; [intros; (reflexivity || exfalso; lra)|]).
  all: split; [exact Hn|intros store base; repeat split; vm_compute; reflexivity].
Qed.

(** C2, as stated, fails: with rating 9 and the positive scale hint 5 the
    normalized rating is 9, and a category rated 150 (beyond every known
    scale, so read on scale 5) normalizes to 150. *)
Lemma C2_counterexample :
  positiveHint (raw_ratingScale reviewAboveScale) /\
  nr_normalizedRating (normalizeReview standardOnly [] reviewAboveScale) = Some 9 /\
  ~ inRange05 (nr_normalizedRating (normalizeReview standardOnly [] reviewAboveScale)) /\
  ~ Forall (fun c => inRange05 (normalizedRating c))
           (categoryRatings (normalizeReview standardOnly [] reviewAboveScale)).
Proof.
  split; [reflexivity|]. split; [vm_compute; reflexivity|]. split.
  - intros [_ H]. revert H. apply Qlt_not_le. vm_compute. reflexivity.
  - intros H. inversion H as [|c l Hc _]; subst.
    destruct Hc as [_ Hc]. revert Hc. apply Qlt_not_le. vm_compute. reflexivity.
Qed.

(** C2, amended.  For every raw review: if its rating is absent or lies
    between 0 and its detected scale, its normalized rating is null or
    within [0, 5]; and its normalized category ratings are those of its raw
    category ratings, one for one and in order, each one whose raw value is
    absent or lies between 0 and 100 being null or within [0, 5], whatever
    the rating and the other categories are. *)
Theorem C2_normalized_rating_in_range
    (store : ApprovalsStore) (review : HostawayReview) :
  (ratingWithin (raw_rating review)
     (detectScale (raw_rating review) (raw_ratingScale review)) ->
   inRange05 (nr_normalizedRating (normalizeReview hostParse store review))) /\
  Forall2 (fun raw c =>
             rating c = cr_rating raw /\
             (ratingWithin (cr_rating raw) 100 -> inRange05 (normalizedRating c)))
          (rawCategories review)
          (categoryRatings (normalizeReview hostParse store review)).
Proof.
  split.
  - intros Hr. simpl. now apply normalizeValueToTarget_range.
  - simpl. unfold normalizeCategories, rawCategories.
    destruct (raw_reviewCategory review) as [cs|]; [|constructor].
    induction cs as [|c cs IH]; simpl; constructor; [|exact IH].
    split; [reflexivity|]. intros Hw. apply normalizeValueToTarget_range.
    revert Hw. unfold ratingWithin. destruct (cr_rating c) as [v|]; [|trivial].
    intros [H0 H100]. split; [exact H0|]. now apply detectScale_covers.
Qed.

End Ratings.

(** The scenario of C8 evaluated on a review with no other field. *)
Lemma C8_witness :
  detectScale (Some 9%Q) None = 10%Q /\
  nr_normalizedRating (normalizeReview standardOnly [] (scenario7453 (bareReview 0 0)))
  = Some (9 # 2)%Q.
Proof.
  split.
  - apply (C8_scale_by_magnitude_and_rounding standardOnly 9%Q).
    split; [reflexivity|discriminate].
  - apply (C8_scale_by_magnitude_and_rounding standardOnly 9%Q).
Defined.

Lemma C2_witness :
  inRange05 (nr_normalizedRating
               (normalizeReview standardOnly [] (scenario7453 (bareReview 0 0)))) /\
  Forall (fun c => inRange05 (normalizedRating c))
         (categoryRatings (normalizeReview standardOnly [] (scenario7453 (bareReview 0 0)))).
Proof.
  destruct (C2_normalized_rating_in_range standardOnly [] (scenario7453 (bareReview 0 0)))
    as [Hr Hc].
  split.
  - apply Hr. simpl. split; discriminate.
  - simpl in Hc. inversion Hc as [|raw c raws cs [_ H] _]; subst.
    constructor; [|constructor]. apply H. simpl. split; discriminate.
Defined.

(* ------------------------------------------------------------------------- *)
(** ** Slugs *)

Section Slugs.

(** what the host makes of a date string outside the standard format *)
Variable hostParse : string -> option Z.

Lemma alnum_not_hyphen (c : ascii) :
  JSString.isLowerAlnum c = true -> isHyphen c = false.
Proof.
  intros H. destruct (isHyphen c) eqn:E; [|reflexivity].
  apply Ascii.eqb_eq in E. subst c. discriminate H.
Qed.

Lemma replaceNonAlnumRuns_chars (s : string) :
  forall inRun, allChars isSlugChar (replaceNonAlnumRuns inRun s) = true.
Proof.
  induction s as [|c s IH]; intros inRun; simpl; [reflexivity|].
  destruct (JSString.isLowerAlnum c) eqn:E.
  - simpl. unfold isSlugChar. rewrite E. simpl. apply IH.
  - destruct inRun; [apply IH|]. simpl. apply IH.
Qed.

Lemma replaceNonAlnumRuns_single (s : string) :
  forall inRun,
    noDoubleHyphen (replaceNonAlnumRuns inRun s) = true /\
    (inRun = true -> startsWithHyphen (replaceNonAlnumRuns inRun s) = false).
Proof.
  induction s as [|c s IH]; intros inRun; simpl; [split; reflexivity|].
  destruct (JSString.isLowerAlnum c) eqn:E.
  - simpl. rewrite (alnum_not_hyphen c E). simpl.
    split; [apply IH | reflexivity].
  - destruct inRun.
    + apply IH.
    + simpl. destruct (IH true) as [H1 H2]. rewrite H1, (H2 eq_refl).
      split; [reflexivity | discriminate].
Qed.

Lemma dropLastHyphen_cons (c d : ascii) (s : string) :
  dropLastHyphen (String c (String d s)) = String c (dropLastHyphen (String d s)).
Proof. reflexivity. Qed.

Lemma dropLastHyphen_one (c : ascii) :
  dropLastHyphen (String c EmptyString)
  = if isHyphen c then EmptyString else String c EmptyString.
Proof. reflexivity. Qed.

Lemma noDoubleHyphen_cons (c : ascii) (s : string) :
  noDoubleHyphen (String c s)
  = negb (isHyphen c && startsWithHyphen s) && noDoubleHyphen s.
Proof. reflexivity. Qed.

Lemma allChars_cons (p : ascii -> bool) (c : ascii) (s : string) :
  allChars p (String c s) = p c && allChars p s.
Proof. reflexivity. Qed.

Lemma dropLastHyphen_chars (p : ascii -> bool) (s : string) :
  allChars p s = true -> allChars p (dropLastHyphen s) = true.
Proof.
  induction s as [|c s IH]; [trivial|].
  rewrite allChars_cons. intros H. apply andb_true_iff in H as [Hc Hs].
  destruct s as [|d s'].
  - rewrite dropLastHyphen_one. destruct (isHyphen c); [reflexivity|].
    rewrite allChars_cons, Hc. reflexivity.
  - rewrite dropLastHyphen_cons, allChars_cons, Hc, (IH Hs). reflexivity.
Qed.

Lemma dropLastHyphen_starts (s : string) :
  startsWithHyphen (dropLastHyphen s) = true -> startsWithHyphen s = true.
Proof.
  destruct s as [|c [|d s']]; [trivial| |].
  - rewrite dropLastHyphen_one. destruct (isHyphen c) eqn:E; simpl; [discriminate|].
    now rewrite E.
  - rewrite dropLastHyphen_cons. trivial.
Qed.

Lemma dropLastHyphen_single (s : string) :
  noDoubleHyphen s = true -> noDoubleHyphen (dropLastHyphen s) = true.
Proof.
  induction s as [|c s IH]; [trivial|].
  rewrite noDoubleHyphen_cons. intros H. apply andb_true_iff in H as [Hc Hs].
  destruct s as [|d s'].
  - rewrite dropLastHyphen_one. destruct (isHyphen c); [reflexivity|].
    rewrite noDoubleHyphen_cons. simpl. now rewrite andb_false_r.
  - rewrite dropLastHyphen_cons, noDoubleHyphen_cons, (IH Hs), andb_true_r.
    destruct (startsWithHyphen (dropLastHyphen (String d s'))) eqn:Es;
      [|now rewrite andb_false_r].
    apply dropLastHyphen_starts in Es. now rewrite Es in Hc.
Qed.

Lemma dropLastHyphen_ends (s : string) :
  noDoubleHyphen s = true -> endsWithHyphen (dropLastHyphen s) = false.
Proof.
  induction s as [|c s IH]; [trivial|].
  rewrite noDoubleHyphen_cons. intros H. apply andb_true_iff in H as [Hc Hs].
  destruct s as [|d s'].
  - rewrite dropLastHyphen_one. destruct (isHyphen c) eqn:Ec; simpl; [reflexivity | exact Ec].
  - rewrite dropLastHyphen_cons. specialize (IH Hs).
    destruct (dropLastHyphen (String d s')) as [|e t] eqn:Ed; [|exact IH].
    destruct s' as [|f s'']; [|rewrite dropLastHyphen_cons in Ed; discriminate Ed].
    rewrite dropLastHyphen_one in Ed.
    destruct (isHyphen d) eqn:Edh; [|discriminate Ed].
    simpl in Hc. rewrite Edh, andb_true_r in Hc. apply negb_true_iff in Hc.
    simpl. exact Hc.
Qed.

Lemma stripEdgeHyphens_wellFormed (s : string) :
  allChars isSlugChar s = true -> noDoubleHyphen s = true ->
  slugWellFormed (stripEdgeHyphens s) = true.
Proof.
  intros Hc Hd. unfold slugWellFormed.
  destruct s as [|c s']; [reflexivity|].
  rewrite allChars_cons in Hc. rewrite noDoubleHyphen_cons in Hd.
  apply andb_true_iff in Hc as [Hc Hc'].
  apply andb_true_iff in Hd as [Hd Hd'].
  unfold stripEdgeHyphens. destruct (isHyphen c) eqn:Ec.
  - rewrite (dropLastHyphen_chars _ _ Hc'), (dropLastHyphen_single _ Hd'),
      (dropLastHyphen_ends _ Hd').
    destruct (startsWithHyphen (dropLastHyphen s')) eqn:Es; [|reflexivity].
    apply dropLastHyphen_starts in Es. rewrite Es in Hd. discriminate Hd.
  - assert (Hall : allChars isSlugChar (String c s') = true)
      by (rewrite allChars_cons; now rewrite Hc, Hc').
    assert (Hno : noDoubleHyphen (String c s') = true)
      by (rewrite noDoubleHyphen_cons; now rewrite Ec, Hd').
    rewrite (dropLastHyphen_chars _ _ Hall), (dropLastHyphen_single _ Hno),
      (dropLastHyphen_ends _ Hno).
    destruct (startsWithHyphen (dropLastHyphen (String c s'))) eqn:Es; [|reflexivity].
    apply dropLastHyphen_starts in Es. simpl in Es. congruence.
Qed.

Lemma toSlug_wellFormed (value : string) : slugWellFormed (toSlug value) = true.
Proof.
  unfold toSlug. apply stripEdgeHyphens_wellFormed.
  - apply replaceNonAlnumRuns_chars.
  - apply replaceNonAlnumRuns_single.
Qed.

(** C10. For every raw review the derived [listingSlug] consists of
    lower-case alphanumeric characters and hyphens only, has no two adjacent
    hyphens and neither starts nor ends with a hyphen; and the raw review
    whose listing name is "!!!" keeps the non-empty listing name "!!!" while
    its [listingSlug] is the empty string. *)
Theorem C10_slug_shape_and_empty_slug :
  (forall (store : ApprovalsStore) (review : HostawayReview),
      let s := listingSlug (normalizeReview hostParse store review) in
      allChars isSlugChar s = true /\ noDoubleHyphen s = true /\
      startsWithHyphen s = false /\ endsWithHyphen s = false) /\
  (listingName (normalizeReview hostParse [] reviewBangs) = "!!!" /\
   listingSlug (normalizeReview hostParse [] reviewBangs) = EmptyString).
Proof.
  split; [|split; reflexivity].
  intros store review s. subst s. simpl listingSlug.
  pose proof (toSlug_wellFormed
                (sanitizeAndFallback (raw_listingName review) "Flex Living Listing")) as H.
  unfold slugWellFormed in H.
  repeat (apply andb_true_iff in H as [H ?]).
  repeat split; try assumption; now apply negb_true_iff.
Qed.

End Slugs.

(* ------------------------------------------------------------------------- *)
(** ** Filters *)

Section Filters.

Local Open Scope Z_scope.

(** what the host makes of a date string outside the standard format *)
Variable hostParse : string -> option Z.

(** one step of the chain of early returns of [matchesFilters] *)
Ltac next_check :=
  match goal with
  | |- (if ?c then false else _) = _ => destruct c; [reflexivity|]
  | |- (if ?c then false else _) = _ => destruct c eqn:?; [reflexivity|]
  end.

Lemma parseDate_truthy (bound : option string) :
  match truthy bound with
  | Some s => parseDate hostParse (Some s)
  | None => None
  end = parseDate hostParse bound.
Proof.
  destruct bound as [s|]; [|reflexivity].
  simpl. destruct (JSString.isEmpty s) eqn:E; simpl; [reflexivity|].
  now rewrite E.
Qed.

(** The search predicate is a phrase match, and the other predicates do not
    depend on it. *)
Lemma matchesFilters_search (review : NormalizedReview) (f : ReviewFilters)
    (q : string) :
  matchesFilters hostParse review (withSearch f (Some q))
  = matchesFilters hostParse review (withSearch f None)
    && (JSString.isEmpty q
        || JSString.includes (haystackOf review) (JSString.toLowerCase q)).
Proof.
  unfold matchesFilters. simpl.
  repeat match goal with
         | |- (if ?c then false else _) = (if ?c then false else _) && _ =>
             destruct c; [reflexivity|]
         end.
  destruct (JSString.isEmpty q); simpl; [reflexivity|].
  destruct (JSString.includes _ _); reflexivity.
Qed.

(** C4, as stated, fails: each of the two terms of the query "great stay"
    occurs in the searched text of the review, whose public comment is
    "Great place to stay", and the review does not match. *)
Lemma C4_counterexample :
  JSString.words "great stay" = ["great"; "stay"] /\
  allTermsMatch (normalizeReview standardOnly [] reviewGreatStay) "great stay" = true /\
  matchesFilters standardOnly (normalizeReview standardOnly [] reviewGreatStay)
    (withSearch noFilters (Some "great stay")) = false.
Proof. repeat split. Qed.

(** C4, amended.  A review passes a filter whose search string is [q] exactly
    when it passes the filter's other predicates and [q] is empty or the
    whole lower-cased [q], as one phrase, is a substring of the lower-cased
    text made of listing name, guest name, public comment, private comment,
    manager response and tags joined by single spaces. *)
Theorem C4_search_is_phrase_match (review : NormalizedReview)
    (f : ReviewFilters) (q : string) :
  (matchesFilters hostParse review (withSearch f (Some q)) = true <->
   matchesFilters hostParse review (withSearch f None) = true /\
   (q = EmptyString \/
    JSString.includes
      (JSString.toLowerCase
         (JSString.join " "
            (listingName review :: orEmpty (guestName review)
               :: orEmpty (publicReview review) :: orEmpty (privateReview review)
               :: orEmpty (managerResponse review) :: tags review)))
      (JSString.toLowerCase q) = true)).
Proof.
  rewrite matchesFilters_search, andb_true_iff, orb_true_iff.
  fold (haystackOf review).
  assert (E : JSString.isEmpty q = true <-> q = EmptyString)
    by (destruct q; simpl; split; congruence).
  rewrite E. reflexivity.
Qed.

Lemma epoch_parses : parseDate hostParse (Some epochIso) = Some 0.
Proof. reflexivity. Qed.

(** Normalization consults the host through the reading of the submission
    timestamp only; it does not when the timestamp is missing. *)
Lemma normalizeReview_host (otherHost : string -> option Z)
    (store : ApprovalsStore) (review : HostawayReview) :
  parseDate hostParse (raw_submittedAt review)
  = parseDate otherHost (raw_submittedAt review) ->
  normalizeReview hostParse store review = normalizeReview otherHost store review.
Proof. intros H. unfold normalizeReview. now rewrite H. Qed.

Lemma normalizeReview_epoch (store : ApprovalsStore) (review : HostawayReview) :
  parseDate hostParse (raw_submittedAt review) = None ->
  submittedAt (normalizeReview hostParse store review) = epochIso.
Proof. intros H. simpl. rewrite H. reflexivity. Qed.

Lemma matchesFilters_epoch (n : NormalizedReview) (f : ReviewFilters) :
  submittedAt n = epochIso ->
  epochExcluded hostParse f = true -> matchesFilters hostParse n f = false.
Proof.
  intros Hn Hx. unfold matchesFilters. do 9 next_check.
  cbv zeta. rewrite !parseDate_truthy, Hn, epoch_parses.
  unfold epochExcluded, boundInstant in Hx.
  destruct (parseDate hostParse (f_startDate f)) as [s|],
    (parseDate hostParse (f_endDate f)) as [e|];
    simpl in Hx |- *; rewrite ?Z.gtb_ltb, ?orb_false_r in *;
    try rewrite Hx; try reflexivity; discriminate Hx.
Qed.

Lemma matchesFilters_epoch_dates (n : NormalizedReview) (startDate endDate : option string) :
  submittedAt n = epochIso ->
  matchesFilters hostParse n (withDates noFilters startDate endDate)
  = negb (epochExcluded hostParse (withDates noFilters startDate endDate)).
Proof.
  intros Hn. unfold matchesFilters. cbn [withDates noFilters f_listingId f_listingSlug
    f_channels f_types f_statuses f_approved f_minRating f_maxRating f_category
    f_minCategoryRating f_startDate f_endDate f_search truthy nonEmpty].
  cbv zeta. rewrite !parseDate_truthy, Hn, epoch_parses.
  unfold epochExcluded, boundInstant.
  cbn [withDates f_startDate f_endDate].
  destruct (parseDate hostParse startDate) as [s|], (parseDate hostParse endDate) as [e|];
    rewrite ?Z.gtb_ltb; simpl;
    repeat match goal with |- context [?a <? ?b] => destruct (a <? b) end;
    reflexivity.
Qed.

(** An unparseable [submittedAt] is excluded as soon as one bound parses. *)
Lemma matchesFilters_unparseable (n : NormalizedReview) (f : ReviewFilters) :
  parseDate hostParse (Some (submittedAt n)) = None ->
  boundInstant hostParse (f_startDate f) <> None
  \/ boundInstant hostParse (f_endDate f) <> None ->
  matchesFilters hostParse n f = false.
Proof.
  intros Hn Hb. unfold matchesFilters. do 9 next_check.
  cbv zeta. rewrite !parseDate_truthy, Hn. unfold boundInstant in Hb.
  destruct (parseDate hostParse (f_startDate f)), (parseDate hostParse (f_endDate f));
    try reflexivity. destruct Hb as [Hb|Hb]; now elim Hb.
Qed.

(** On every host the raw review without a submission timestamp passes the
    filter whose only bound is the end date 2024-12-31, and the filter from
    1969-01-01 to 2024-12-31: the bounds are in the standard format. *)
Lemma missing_timestamp_passes_bounds :
  parseDate hostParse (raw_submittedAt reviewNoDate) = None /\
  matchesFilters hostParse (normalizeReview hostParse [] reviewNoDate)
    (withDates noFilters None (Some "2024-12-31")) = true /\
  matchesFilters hostParse (normalizeReview hostParse [] reviewNoDate)
    (withDates noFilters (Some "1969-01-01") (Some "2024-12-31")) = true.
Proof. repeat split; vm_compute; reflexivity. Qed.

(** On every host it is excluded by a start bound written with an offset:
    midnight of 2024-01-01 at +01:00 is after the epoch. *)
Lemma missing_timestamp_excluded_by_zoned_bound :
  matchesFilters hostParse (normalizeReview hostParse [] reviewNoDate)
    (withDates noFilters (Some "2024-01-01T00:00:00+01:00") None) = false.
Proof. vm_compute. reflexivity. Qed.

(** C6, as stated, fails: a raw review without a submission timestamp passes
    a filter whose only bound is the end date 2024-12-31, and a raw review
    whose timestamp does not parse (the words "last summer", on a host that
    reads nothing outside the standard format) passes a filter with both
    bounds set, from 1969-01-01 to 2024-12-31. *)
Lemma C6_counterexample :
  (parseDate standardOnly (raw_submittedAt reviewNoDate) = None /\
   boundSet (f_endDate (withDates noFilters None (Some "2024-12-31"))) /\
   matchesFilters standardOnly (normalizeReview standardOnly [] reviewNoDate)
     (withDates noFilters None (Some "2024-12-31")) = true) /\
  (parseDate standardOnly (raw_submittedAt reviewBadDate) = None /\
   boundSet (f_startDate (withDates noFilters (Some "1969-01-01") (Some "2024-12-31"))) /\
   boundSet (f_endDate (withDates noFilters (Some "1969-01-01") (Some "2024-12-31"))) /\
   matchesFilters standardOnly (normalizeReview standardOnly [] reviewBadDate)
     (withDates noFilters (Some "1969-01-01") (Some "2024-12-31")) = true).
Proof.
  repeat split; try discriminate; vm_compute; reflexivity.
Qed.

(** C6, amended.  On every host, a raw review whose submission timestamp is
    missing or unparseable is normalized to the epoch instant; it is then a
    non-match for every filter whose start bound parses to an instant after
    the epoch or whose end bound parses to an instant before it, and a
    filter that sets nothing but date bounds excludes it in these cases
    only. *)
Theorem C6_missing_timestamp_is_filtered_as_epoch
    (store : ApprovalsStore) (review : HostawayReview) (f : ReviewFilters) :
  parseDate hostParse (raw_submittedAt review) = None ->
  submittedAt (normalizeReview hostParse store review) = "1970-01-01T00:00:00.000Z" /\
  (epochExcluded hostParse f = true ->
   matchesFilters hostParse (normalizeReview hostParse store review) f = false) /\
  matchesFilters hostParse (normalizeReview hostParse store review)
    (withDates noFilters (f_startDate f) (f_endDate f))
  = negb (epochExcluded hostParse f).
Proof.
  intros H. pose proof (normalizeReview_epoch store review H) as E.
  split; [exact E|]. split.
  - now apply matchesFilters_epoch.
  - now rewrite matchesFilters_epoch_dates.
Qed.


End Filters.

Lemma C6_witness :
  submittedAt (normalizeReview standardOnly [] reviewBadDate) = "1970-01-01T00:00:00.000Z" /\
  matchesFilters standardOnly (normalizeReview standardOnly [] reviewBadDate)
    (withDates noFilters (Some "2024-01-01") None) = false.
Proof.
  split.
  - apply (C6_missing_timestamp_is_filtered_as_epoch standardOnly [] reviewBadDate
             noFilters).
    reflexivity.
  - apply (C6_missing_timestamp_is_filtered_as_epoch standardOnly [] reviewBadDate
             (withDates noFilters (Some "2024-01-01") None));
      reflexivity.
Defined.

(* ------------------------------------------------------------------------- *)
(** ** Maps in insertion order *)

Section MapFacts.

Context {K V : Type}.
Variable eqb : K -> K -> bool.
Hypothesis eqb_eq : forall a b, eqb a b = true <-> a = b.

Lemma eqb_refl (a : K) : eqb a a = true.
Proof. now apply eqb_eq. Qed.

Lemma eqb_neq (a b : K) : a <> b -> eqb a b = false.
Proof.
  intros H. destruct (eqb a b) eqn:E; [|reflexivity].
  apply eqb_eq in E. contradiction.
Qed.

Lemma get_set_same (m : list (K * V)) (k : K) (v : V) :
  JSMap.get eqb (JSMap.set eqb m k v) k = Some v.
Proof.
  induction m as [|[k' v'] m IH]; simpl.
  - now rewrite eqb_refl.
  - destruct (eqb k' k) eqn:E; simpl.
    + now rewrite eqb_refl.
    + now rewrite E.
Qed.

Lemma get_set_other (m : list (K * V)) (k k' : K) (v : V) :
  k <> k' -> JSMap.get eqb (JSMap.set eqb m k v) k' = JSMap.get eqb m k'.
Proof.
  intros N. induction m as [|[k0 v0] m IH]; simpl.
  - now rewrite (eqb_neq _ _ N).
  - destruct (eqb k0 k) eqn:E; simpl.
    + apply eqb_eq in E. subst k0. now rewrite (eqb_neq _ _ N).
    + destruct (eqb k0 k'); [reflexivity | exact IH].
Qed.

Lemma get_In (m : list (K * V)) (k : K) (v : V) :
  JSMap.get eqb m k = Some v -> In (k, v) m.
Proof.
  induction m as [|[k0 v0] m IH]; simpl; [discriminate|].
  destruct (eqb k0 k) eqn:E.
  - apply eqb_eq in E. subst k0. intros [= ->]. now left.
  - intros H. right. now apply IH.
Qed.

Lemma keys_set (m : list (K * V)) (k : K) (v : V) :
  map fst (JSMap.set eqb m k v) = JSMap.add eqb (map fst m) k.
Proof.
  induction m as [|[k0 v0] m IH]; simpl; [reflexivity|].
  destruct (eqb k0 k) eqn:E; simpl.
  - apply eqb_eq in E. now subst k0.
  - now rewrite IH.
Qed.

Lemma keys_has (m : list (K * V)) (k : K) :
  JSMap.has eqb m k = true -> JSMap.add eqb (map fst m) k = map fst m.
Proof.
  unfold JSMap.has. induction m as [|[k0 v0] m IH]; simpl; [discriminate|].
  destruct (eqb k0 k); [reflexivity|]. intros H. now rewrite IH.
Qed.

End MapFacts.

Lemma fold_left_flat_map {A B C : Type} (f : A -> C -> A) (g : B -> list C)
    (l : list B) (a : A) :
  fold_left (fun acc b => fold_left f (g b) acc) l a = fold_left f (flat_map g l) a.
Proof.
  revert a. induction l as [|b l IH]; intros a; simpl; [reflexivity|].
  now rewrite fold_left_app, IH.
Qed.

(* ------------------------------------------------------------------------- *)
(** ** Approval *)

Section Approval.

(** what the host makes of a date string outside the standard format *)
Variable hostParse : string -> option Z.

(** The approval that normalization reads is the one stored under
    [String(id)], the key [refreshApprovals] seeds. *)
Lemma normalizeReview_reads_source_id
    (store : ApprovalsStore) (review : HostawayReview) (v : bool) :
  getApproval store (JSString.ofZ (raw_id review)) = Some v ->
  isApproved (normalizeReview hostParse store review) = v.
Proof. intros H. simpl. rewrite H. reflexivity. Qed.

Lemma ofZ_not_public_id (n : Z) (s : string) :
  JSString.ofZ n <> "hostaway-" ++ s.
Proof.
  unfold JSString.ofZ. destruct (Z.to_int n) as [d|d]; simpl.
  - destruct d; discriminate.
  - discriminate.
Qed.

Lemma getApproval_setApproval_other (store : ApprovalsStore) (now k k' : string)
    (v : bool) :
  k <> k' -> getApproval (setApproval store now k v) k' = getApproval store k'.
Proof.
  intros N. unfold getApproval, setApproval.
  now rewrite get_set_other; [|apply String.eqb_eq|].
Qed.

(** Normalization depends on the store through one lookup only. *)
Lemma normalizeReview_store (s1 s2 : ApprovalsStore) (review : HostawayReview) :
  getApproval s1 (JSString.ofZ (raw_id review))
  = getApproval s2 (JSString.ofZ (raw_id review)) ->
  normalizeReview hostParse s1 review = normalizeReview hostParse s2 review.
Proof. intros H. unfold normalizeReview. now rewrite H. Qed.

(** C1: the code at the failing input, and on every input.  After the
    approval endpoint has stored [false] under the public identifier
    ["hostaway-7453"], the store maps that identifier to [false] and has
    nothing under ["7453"]; the review with source id 7453 and
    [publishOnFlex: true] still normalizes to the identifier
    ["hostaway-7453"] with [isApproved = true].  In general a value stored
    by the endpoint under a public identifier ["hostaway-" + n] changes the
    normalization of no review. *)
Theorem C1_override_under_public_id_is_not_read :
  (getApproval storeAfterHide "hostaway-7453" = Some false /\
   getApproval storeAfterHide "7453" = None /\
   id (normalizeReview hostParse storeAfterHide review7453Published) = "hostaway-7453" /\
   isApproved (normalizeReview hostParse storeAfterHide review7453Published) = true) /\
  (forall (store : ApprovalsStore) (now : string) (n : Z) (v : bool)
          (review : HostawayReview),
      normalizeReview hostParse
        (approveEndpoint store now (Some ("hostaway-" ++ JSString.ofZ n)) (Some v))
        review
      = normalizeReview hostParse store review).
Proof.
  split; [repeat split|].
  intros store now n v review. apply normalizeReview_store.
  unfold approveEndpoint. simpl truthy.
  apply getApproval_setApproval_other.
  intros E. symmetry in E. revert E. apply ofZ_not_public_id.
Qed.

End Approval.

(* ------------------------------------------------------------------------- *)
(** ** Category averages *)

Section CategoryAverages.

Local Abbreviation tracked_get := (JSMap.get String.eqb).

Lemma trackCategory_get_other (t : list (string * (Q * list Q)))
    (c : NormalizedCategoryRating) (k : string) :
  key c <> k -> tracked_get (trackCategory t c) k = tracked_get t k.
Proof.
  intros N. unfold trackCategory.
  set (t1 := if JSMap.has String.eqb t (key c) then t else _).
  assert (E1 : tracked_get t1 k = tracked_get t k).
  { subst t1. destruct (JSMap.has String.eqb t (key c)); [reflexivity|].
    now apply get_set_other; [apply String.eqb_eq|]. }
  destruct (normalizedRating c); [|exact E1].
  destruct (tracked_get t1 (key c)) as [[sc vs]|]; [|exact E1].
  rewrite get_set_other; [exact E1 | apply String.eqb_eq | exact N].
Qed.

Lemma trackCategory_get_null (t : list (string * (Q * list Q)))
    (c : NormalizedCategoryRating) :
  normalizedRating c = None ->
  tracked_get (trackCategory t c) (key c)
  = match tracked_get t (key c) with
    | Some entry => Some entry
    | None => Some (scale c, [])
    end.
Proof.
  intros H. unfold trackCategory, JSMap.has. rewrite H.
  destruct (tracked_get t (key c)) eqn:E; [exact E|].
  apply get_set_same, String.eqb_eq.
Qed.

Lemma tracked_null_kept (cats : list NormalizedCategoryRating) (k : string) :
  (forall c, In c cats -> key c = k -> normalizedRating c = None) ->
  forall t sc, tracked_get t k = Some (sc, []) ->
               tracked_get (fold_left trackCategory cats t) k = Some (sc, []).
Proof.
  induction cats as [|c cats IH]; intros Hnull t sc Ht; simpl; [exact Ht|].
  apply IH; [intros c' Hc'; apply Hnull; now right|].
  destruct (String.eqb_spec (key c) k) as [E|N].
  - subst k. rewrite trackCategory_get_null, Ht; [reflexivity|].
    apply Hnull; [now left | reflexivity].
  - now rewrite trackCategory_get_other.
Qed.

Lemma tracked_null_created (cats : list NormalizedCategoryRating) (k : string) :
  (forall c, In c cats -> key c = k -> normalizedRating c = None) ->
  (exists c, In c cats /\ key c = k) ->
  forall t, tracked_get t k = None ->
            exists sc, tracked_get (fold_left trackCategory cats t) k = Some (sc, []).
Proof.
  induction cats as [|c cats IH]; intros Hnull [c0 [Hin Hk]] t Ht; [contradiction|].
  simpl. destruct (String.eqb_spec (key c) k) as [E|N].
  - exists (scale c). clear c0 Hin Hk. apply tracked_null_kept.
    + intros c' Hc'. apply Hnull. now right.
    + subst k. rewrite trackCategory_get_null, Ht; [reflexivity|].
      apply Hnull; [now left | reflexivity].
  - apply IH.
    + intros c' Hc'. apply Hnull. now right.
    + destruct Hin as [->|Hin]; [contradiction|]. now exists c0.
    + now rewrite trackCategory_get_other.
Qed.

Lemma trackCategory_keys (t : list (string * (Q * list Q)))
    (c : NormalizedCategoryRating) :
  map fst (trackCategory t c) = JSMap.add String.eqb (map fst t) (key c).
Proof.
  unfold trackCategory.
  destruct (JSMap.has String.eqb t (key c)) eqn:Hhas.
  - rewrite (keys_has String.eqb _ _ Hhas).
    destruct (normalizedRating c); [|reflexivity].
    destruct (tracked_get t (key c)) as [[sc vs]|]; [|reflexivity].
    rewrite (keys_set String.eqb String.eqb_eq).
    apply (keys_has String.eqb _ _ Hhas).
  - destruct (normalizedRating c);
      [|apply (keys_set String.eqb String.eqb_eq)].
    rewrite (get_set_same String.eqb String.eqb_eq).
    rewrite (keys_set String.eqb String.eqb_eq).
    rewrite (keys_has String.eqb (JSMap.set String.eqb t (key c) (scale c, []))).
    + apply (keys_set String.eqb String.eqb_eq).
    + unfold JSMap.has. now rewrite (get_set_same String.eqb String.eqb_eq).
Qed.

Lemma tracked_keys (cats : list NormalizedCategoryRating) :
  forall t, map fst (fold_left trackCategory cats t)
            = fold_left (JSMap.add String.eqb) (map key cats) (map fst t).
Proof.
  induction cats as [|c cats IH]; intros t; simpl; [reflexivity|].
  now rewrite IH, trackCategory_keys.
Qed.

Lemma trackedCategories_flat (reviews : list NormalizedReview) :
  trackedCategories reviews
  = fold_left trackCategory (allCategoryRatings reviews) [].
Proof. apply fold_left_flat_map. Qed.

(** C5, as stated, fails: for a review set whose only rating of the category
    "wifi" has no value, the aggregation emits the entry of that category,
    with a null average. *)
Lemma C5_counterexample :
  keyObserved "wifi" [normalizeReview standardOnly [] reviewNullCategory] /\
  allValuesNull "wifi" [normalizeReview standardOnly [] reviewNullCategory] /\
  buildCategoryAverages [normalizeReview standardOnly [] reviewNullCategory]
  = [mkCategoryAverages (humanizeCategory "wifi") None 5 None].
Proof.
  split; [|split; [|reflexivity]].
  - eexists. split; [left; reflexivity | reflexivity].
  - intros c [<-|[]] _. reflexivity.
Qed.

(** C5, amended.  For every review set the category-averages aggregation
    emits one entry per distinct category key observed in the set, in
    first-seen order; and every category key all of whose observed values
    are null is present in the output, with a null average and a null
    normalized average. *)
Theorem C5_category_without_values_has_null_entry
    (reviews : list NormalizedReview) :
  map ca_category (buildCategoryAverages reviews)
  = map humanizeCategory (observedKeys reviews) /\
  forall k : string,
    keyObserved k reviews ->
    allValuesNull k reviews ->
    exists sc : Q,
      In (mkCategoryAverages (humanizeCategory k) None sc None)
         (buildCategoryAverages reviews).
Proof.
  unfold buildCategoryAverages. split.
  - rewrite map_map, trackedCategories_flat.
    unfold observedKeys, collectSet.
    pose proof (tracked_keys (allCategoryRatings reviews) []) as Hk.
    change (map fst (@nil (string * (Q * list Q)))) with (@nil string) in Hk.
    rewrite <- Hk, map_map.
    apply map_ext. intros [k' [sc vs]]. reflexivity.
  - intros k Hobs Hnull. rewrite trackedCategories_flat.
    destruct (tracked_null_created _ k Hnull Hobs [] eq_refl) as [sc Hsc].
    exists sc. apply get_In in Hsc; [|apply String.eqb_eq].
    apply in_map_iff. exists (k, (sc, [])). split; [reflexivity | exact Hsc].
Qed.

Lemma C5_witness :
  exists sc : Q,
    In (mkCategoryAverages (humanizeCategory "wifi") None sc None)
       (buildCategoryAverages [normalizeReview standardOnly [] reviewNullCategory]).
Proof.
  apply (C5_category_without_values_has_null_entry
           [normalizeReview standardOnly [] reviewNullCategory]).
  - eexists. split; [left; reflexivity | reflexivity].
  - intros c [<-|[]] _. reflexivity.
Defined.

End CategoryAverages.

(* ------------------------------------------------------------------------- *)
(** ** Sorting *)

Section SortFacts.

Context {A : Type}.
Variable cmp : A -> A -> jsnum.

Lemma insert_perm (x : A) (l : list A) :
  Permutation (JSArray.insert cmp x l) (x :: l).
Proof.
  induction l as [|y l IH]; simpl; [apply Permutation_refl|].
  destruct (JSNumber.isPositive (cmp x y)); [|apply Permutation_refl].
  eapply Permutation_trans; [apply perm_skip, IH | apply perm_swap].
Qed.

Lemma sort_perm (l : list A) : Permutation (JSArray.sort cmp l) l.
Proof.
  induction l as [|x l IH]; simpl; [constructor|].
  eapply Permutation_trans; [apply insert_perm | now apply perm_skip].
Qed.

Section Order.

Variable R : A -> A -> Prop.
Hypothesis R_trans : forall a b c, R a b -> R b c -> R a c.
Hypothesis goes_after : forall x y, JSNumber.isPositive (cmp x y) = true -> R y x.
Hypothesis stays_before : forall x y, JSNumber.isPositive (cmp x y) = false -> R x y.

Lemma insert_sorted (x : A) (l : list A) :
  StronglySorted R l -> StronglySorted R (JSArray.insert cmp x l).
Proof.
  induction l as [|y l IH]; intros Hs; simpl.
  - constructor; constructor.
  - inversion Hs as [|? ? Hl Hy]; subst.
    destruct (JSNumber.isPositive (cmp x y)) eqn:E.
    + constructor; [now apply IH|].
      apply Forall_forall. intros z Hz.
      apply (Permutation_in _ (insert_perm x l)) in Hz.
      destruct Hz as [<-|Hz]; [now apply goes_after|].
      rewrite Forall_forall in Hy. now apply Hy.
    + constructor; [exact Hs|].
      constructor; [now apply stays_before|].
      eapply Forall_impl; [|exact Hy].
      intros z Hz. eapply R_trans; [apply stays_before, E | exact Hz].
Qed.

Lemma sort_sorted (l : list A) : StronglySorted R (JSArray.sort cmp l).
Proof.
  induction l as [|x l IH]; simpl; [constructor | now apply insert_sorted].
Qed.

End Order.

(** The sort is stable: elements that the comparator never puts after one
    another keep their order. *)
Lemma sort_stable (p : A -> bool) :
  (forall x y, p x = true -> p y = true -> JSNumber.isPositive (cmp x y) = false) ->
  forall l, filter p (JSArray.sort cmp l) = filter p l.
Proof.
  intros Hp.
  assert (Hins : forall x l, filter p (JSArray.insert cmp x l) = filter p (x :: l)).
  { intros x l. induction l as [|y l IH]; [reflexivity|].
    simpl JSArray.insert. destruct (JSNumber.isPositive (cmp x y)) eqn:E; [|reflexivity].
    simpl filter at 1. rewrite IH. simpl.
    destruct (p x) eqn:Px, (p y) eqn:Py; try reflexivity.
    rewrite (Hp x y Px Py) in E. discriminate E. }
  induction l as [|x l IH]; [reflexivity|].
  simpl JSArray.sort. rewrite Hins. simpl. now rewrite IH.
Qed.

Lemma sorted_filter (R R' : A -> A -> Prop) (p : A -> bool) (l : list A) :
  (forall a b, p a = true -> p b = true -> R a b -> R' a b) ->
  StronglySorted R l -> StronglySorted R' (filter p l).
Proof.
  intros HR. induction 1 as [|x l Hs IH Hx]; simpl; [constructor|].
  destruct (p x) eqn:Px; [|exact IH].
  constructor; [exact IH|].
  apply Forall_forall. intros y Hy. apply filter_In in Hy as [Hy Py].
  rewrite Forall_forall in Hx. apply HR; auto.
Qed.

End SortFacts.

Section HeapFacts.

Context {A : Type}.

Lemma contents_update_same (r : Heap.ref) (v : list A) (h : Heap.heap) :
  (r < List.length h)%nat -> Heap.contents (Heap.update r v h) r = v.
Proof.
  revert r. induction h as [|x h IH]; intros [|r] Hr; simpl in *; try lia.
  - reflexivity.
  - apply IH. lia.
Qed.

Lemma contents_update_other (r r' : Heap.ref) (v : list A) (h : Heap.heap) :
  r <> r' -> Heap.contents (Heap.update r' v h) r = Heap.contents h r.
Proof.
  revert r r'. induction h as [|x h IH]; intros [|r] [|r'] N; simpl; try reflexivity.
  - contradiction.
  - apply IH. congruence.
Qed.

Lemma contents_outside (r : Heap.ref) (h : Heap.heap (A := A)) :
  (List.length h <= r)%nat -> Heap.contents h r = [].
Proof. intros H. unfold Heap.contents. now apply nth_overflow. Qed.

Lemma update_outside (r : Heap.ref) (v : list A) (h : Heap.heap) :
  (List.length h <= r)%nat -> Heap.update r v h = h.
Proof.
  revert r. induction h as [|x h IH]; intros [|r] Hr; simpl in *; try reflexivity.
  - lia.
  - f_equal. apply IH. lia.
Qed.

Lemma contents_alloc (v : list A) (h : Heap.heap) :
  Heap.contents ((h ++ [v])%list) (List.length h) = v.
Proof.
  unfold Heap.contents. rewrite app_nth2, Nat.sub_diag; [reflexivity | lia].
Qed.

Lemma contents_alloc_old (v : list A) (h : Heap.heap) (r : Heap.ref) :
  (r < List.length h)%nat -> Heap.contents ((h ++ [v])%list) r = Heap.contents h r.
Proof. intros H. unfold Heap.contents. now apply app_nth1. Qed.

(** [arr.sort(cmp)] returns [arr], whose contents are now sorted; no other
    array changes. *)
Lemma arraySort_spec (arr : Heap.ref) (cmp : A -> A -> jsnum) (h : Heap.heap) :
  fst (Heap.arraySort arr cmp h) = arr /\
  Heap.contents (snd (Heap.arraySort arr cmp h)) arr
  = JSArray.sort cmp (Heap.contents h arr) /\
  forall r, r <> arr ->
            Heap.contents (snd (Heap.arraySort arr cmp h)) r = Heap.contents h r.
Proof.
  unfold Heap.arraySort, Heap.bind, Heap.read, Heap.write, Heap.ret. simpl.
  split; [reflexivity|]. split.
  - destruct (Nat.lt_ge_cases arr (List.length h)) as [L|G].
    + now apply contents_update_same.
    + rewrite (update_outside _ _ _ G), (contents_outside _ _ G). reflexivity.
  - intros r N. now apply contents_update_other.
Qed.

End HeapFacts.

(* ------------------------------------------------------------------------- *)
(** ** Sorting reviews by rating *)

Section RatingSort.

Local Open Scope Q_scope.

(** what the host makes of a date string outside the standard format *)
Variable hostParse : string -> option Z.
Variable localeCompare : string -> string -> Z.

Lemma optGe_trans (a b c : option Q) : optGe a b -> optGe b c -> optGe a c.
Proof.
  destruct a as [x|], b as [y|], c as [z|]; simpl; try tauto.
  intros. lra.
Qed.

Lemma isPositive_fin (q : Q) : JSNumber.isPositive (JFin q) = true <-> 0 < q.
Proof.
  unfold JSNumber.isPositive. simpl.
  destruct (q ?= 0) eqn:E; split; intros H; try discriminate; try reflexivity.
  - apply Qeq_alt in E. lra.
  - apply Qlt_alt in E. lra.
  - now apply Qgt_alt in E.
Qed.

Lemma isPositive_fin_false (q : Q) : JSNumber.isPositive (JFin q) = false <-> q <= 0.
Proof.
  split; intros H.
  - apply Qnot_lt_le. intros L. apply isPositive_fin in L. congruence.
  - destruct (JSNumber.isPositive (JFin q)) eqn:E; [|reflexivity].
    apply isPositive_fin in E. lra.
Qed.

(** the comparator of [rating:desc]: the two sign changes cancel *)
Lemma ratingDesc_comparator (a b : NormalizedReview) :
  sortComparator hostParse localeCompare (Some "rating:desc"%string) a b
  = JSNumber.jmul
      (JSNumber.jmul (JSNumber.jsub (ratingOrNegInf a) (ratingOrNegInf b))
         (JSNumber.ofZ (-1)))
      (JSNumber.ofZ (-1)).
Proof. reflexivity. Qed.

Lemma ratingAsc_comparator (a b : NormalizedReview) :
  sortComparator hostParse localeCompare (Some "rating:asc"%string) a b
  = JSNumber.jmul
      (JSNumber.jmul (JSNumber.jsub (ratingOrNegInf a) (ratingOrNegInf b))
         (JSNumber.ofZ 1))
      (JSNumber.ofZ (-1)).
Proof. reflexivity. Qed.

Ltac by_rating a b :=
  unfold ratingLe, ratingGe, ratingOrNegInf;
  destruct (nr_normalizedRating a) as [x|], (nr_normalizedRating b) as [y|];
  simpl; try tauto; try discriminate.

Lemma ratingDesc_after (a b : NormalizedReview) :
  JSNumber.isPositive (sortComparator hostParse localeCompare (Some "rating:desc"%string) a b) = true ->
  ratingLe b a.
Proof.
  rewrite ratingDesc_comparator. by_rating a b.
  fold (JSNumber.isPositive (JFin ((x - y) * inject_Z (-1) * inject_Z (-1)))).
  rewrite isPositive_fin. change (inject_Z (-1)) with (-1 # 1). lra.
Qed.

Lemma ratingDesc_before (a b : NormalizedReview) :
  JSNumber.isPositive (sortComparator hostParse localeCompare (Some "rating:desc"%string) a b) = false ->
  ratingLe a b.
Proof.
  rewrite ratingDesc_comparator. by_rating a b.
  fold (JSNumber.isPositive (JFin ((x - y) * inject_Z (-1) * inject_Z (-1)))).
  rewrite isPositive_fin_false. change (inject_Z (-1)) with (-1 # 1). lra.
Qed.

Lemma ratingAsc_after (a b : NormalizedReview) :
  JSNumber.isPositive (sortComparator hostParse localeCompare (Some "rating:asc"%string) a b) = true ->
  ratingGe b a.
Proof.
  rewrite ratingAsc_comparator. by_rating a b.
  fold (JSNumber.isPositive (JFin ((x - y) * inject_Z 1 * inject_Z (-1)))).
  rewrite isPositive_fin. change (inject_Z (-1)) with (-1 # 1).
  change (inject_Z 1) with 1. lra.
Qed.

Lemma ratingAsc_before (a b : NormalizedReview) :
  JSNumber.isPositive (sortComparator hostParse localeCompare (Some "rating:asc"%string) a b) = false ->
  ratingGe a b.
Proof.
  rewrite ratingAsc_comparator. by_rating a b.
  fold (JSNumber.isPositive (JFin ((x - y) * inject_Z 1 * inject_Z (-1)))).
  rewrite isPositive_fin_false. change (inject_Z (-1)) with (-1 # 1).
  change (inject_Z 1) with 1. lra.
Qed.

Lemma ratingGe_trans (a b c : NormalizedReview) :
  ratingGe a b -> ratingGe b c -> ratingGe a c.
Proof. apply optGe_trans. Qed.

Lemma ratingLe_trans (a b c : NormalizedReview) :
  ratingLe a b -> ratingLe b c -> ratingLe a c.
Proof. unfold ratingLe. intros H1 H2. exact (optGe_trans _ _ _ H2 H1). Qed.

(** C3: the code at the failing input, and on every input.  On the reviews
    rated 3, 5, none, 4 the sort [rating:desc] leaves the ratings in the
    order none, 3, 4, 5 and [rating:asc] in the order 5, 4, 3, none.  On
    every array, [rating:desc] sorts it in place into non-decreasing rating
    order (null ratings, as negative infinity, first) and [rating:asc] into
    non-increasing order (null ratings last). *)
Theorem C3_rating_sort_is_inverted :
  map nr_normalizedRating (sortedBy hostParse localeCompare (Some "rating:desc"%string) (fourReviews hostParse))
  = [None; Some 3; Some 4; Some 5] /\
  map nr_normalizedRating (sortedBy hostParse localeCompare (Some "rating:asc"%string) (fourReviews hostParse))
  = [Some 5; Some 4; Some 3; None] /\
  forall (h : Heap.heap) (arr : Heap.ref),
    let desc := applySorting hostParse localeCompare arr (Some "rating:desc"%string) h in
    let asc := applySorting hostParse localeCompare arr (Some "rating:asc"%string) h in
    (fst desc = arr /\
     Permutation (Heap.contents (snd desc) arr) (Heap.contents h arr) /\
     StronglySorted ratingLe (Heap.contents (snd desc) arr)) /\
    (fst asc = arr /\
     Permutation (Heap.contents (snd asc) arr) (Heap.contents h arr) /\
     StronglySorted ratingGe (Heap.contents (snd asc) arr)).
Proof.
  split; [vm_compute; reflexivity|]. split; [vm_compute; reflexivity|].
  intros h arr desc asc. subst desc asc. unfold applySorting. split.
  - destruct (arraySort_spec arr (sortComparator hostParse localeCompare (Some "rating:desc"%string)) h)
      as [E1 [E2 _]].
    split; [exact E1|]. rewrite E2. split; [apply sort_perm|].
    apply sort_sorted;
      [apply ratingLe_trans | apply ratingDesc_after | apply ratingDesc_before].
  - destruct (arraySort_spec arr (sortComparator hostParse localeCompare (Some "rating:asc"%string)) h)
      as [E1 [E2 _]].
    split; [exact E1|]. rewrite E2. split; [apply sort_perm|].
    apply sort_sorted;
      [apply ratingGe_trans | apply ratingAsc_after | apply ratingAsc_before].
Qed.

End RatingSort.

(* ------------------------------------------------------------------------- *)
(** ** The order of listing summaries *)

Section CodeUnitOrder.

Local Open Scope Z_scope.

Lemma compare_le_trans (a : string) :
  forall b c, String.compare a b <> Gt -> String.compare b c <> Gt ->
              String.compare a c <> Gt.
Proof.
  induction a as [|x a IH]; intros [|y b] [|z c]; simpl; try congruence.
  unfold Ascii.compare. intros H1 H2. revert H1 H2.
  destruct (N.compare_spec (N_of_ascii x) (N_of_ascii y)),
    (N.compare_spec (N_of_ascii y) (N_of_ascii z)),
    (N.compare_spec (N_of_ascii x) (N_of_ascii z));
    try lia; try congruence.
  apply IH.
Qed.

Lemma codeUnitCompare_total (a b : string) :
  0 < codeUnitCompare a b -> codeUnitCompare b a <= 0.
Proof.
  unfold codeUnitCompare. rewrite (String.compare_antisym b a).
  destruct (String.compare a b); simpl; lia.
Qed.

Lemma codeUnitCompare_trans (a b c : string) :
  codeUnitCompare a b <= 0 -> codeUnitCompare b c <= 0 -> codeUnitCompare a c <= 0.
Proof.
  unfold codeUnitCompare. intros H1 H2.
  assert (N1 : String.compare a b <> Gt) by (destruct (String.compare a b); [congruence | congruence | lia]).
  assert (N2 : String.compare b c <> Gt) by (destruct (String.compare b c); [congruence | congruence | lia]).
  pose proof (compare_le_trans a b c N1 N2) as N3.
  destruct (String.compare a c); [lia | lia | congruence].
Qed.

End CodeUnitOrder.

Section ListingOrder.

Local Open Scope Q_scope.

(** what the host makes of a date string outside the standard format *)
Variable hostParse : string -> option Z.
Variable localeCompare : string -> string -> Z.

Lemma isPositive_ofZ (z : Z) : JSNumber.isPositive (JSNumber.ofZ z) = true <-> (0 < z)%Z.
Proof.
  unfold JSNumber.ofZ. rewrite isPositive_fin. change 0 with (inject_Z 0).
  now rewrite <- Zlt_Qlt.
Qed.

Lemma isPositive_ofZ_false (z : Z) :
  JSNumber.isPositive (JSNumber.ofZ z) = false <-> (z <= 0)%Z.
Proof.
  unfold JSNumber.ofZ. rewrite isPositive_fin_false. change 0 with (inject_Z 0).
  now rewrite <- Zle_Qle.
Qed.

Ltac by_average a b :=
  unfold compareSummaries, avgGe, summaryLe, nameLe;
  destruct (ls_averageRating a) as [x|], (ls_averageRating b) as [y|];
  simpl optGe; try tauto; try discriminate.

Lemma average_after (a b : ListingReviewSummary) :
  JSNumber.isPositive (compareSummaries localeCompare a b) = true -> avgGe b a.
Proof. by_average a b. rewrite isPositive_fin. lra. Qed.

Lemma average_before (a b : ListingReviewSummary) :
  JSNumber.isPositive (compareSummaries localeCompare a b) = false -> avgGe a b.
Proof. by_average a b. rewrite isPositive_fin_false. lra. Qed.

Lemma avgGe_trans (a b c : ListingReviewSummary) :
  avgGe a b -> avgGe b c -> avgGe a c.
Proof. apply optGe_trans. Qed.

Lemma equal_average_before (q : Q) (a b : ListingReviewSummary) :
  averageIs q a = true -> averageIs q b = true ->
  JSNumber.isPositive (compareSummaries localeCompare a b) = false.
Proof.
  unfold averageIs, compareSummaries.
  destruct (ls_averageRating a) as [x|], (ls_averageRating b) as [y|];
    try discriminate.
  intros Hx Hy. apply Qeq_bool_iff in Hx, Hy.
  apply isPositive_fin_false. rewrite Hx, Hy. lra.
Qed.

Section Collation.

Hypothesis locale_total :
  forall a b, (0 < localeCompare a b -> localeCompare b a <= 0)%Z.
Hypothesis locale_trans :
  forall a b c, (localeCompare a b <= 0 -> localeCompare b c <= 0 ->
                 localeCompare a c <= 0)%Z.

Lemma summary_after (a b : ListingReviewSummary) :
  JSNumber.isPositive (compareSummaries localeCompare a b) = true ->
  summaryLe localeCompare b a.
Proof.
  by_average a b.
  - rewrite isPositive_fin. lra.
  - rewrite isPositive_ofZ. apply locale_total.
Qed.

Lemma summary_before (a b : ListingReviewSummary) :
  JSNumber.isPositive (compareSummaries localeCompare a b) = false ->
  summaryLe localeCompare a b.
Proof.
  by_average a b.
  - rewrite isPositive_fin_false. lra.
  - now rewrite isPositive_ofZ_false.
Qed.

Lemma summaryLe_trans (a b c : ListingReviewSummary) :
  summaryLe localeCompare a b -> summaryLe localeCompare b c ->
  summaryLe localeCompare a c.
Proof.
  unfold summaryLe, nameLe.
  destruct (ls_averageRating a), (ls_averageRating b), (ls_averageRating c);
    try tauto.
  - intros. lra.
  - apply locale_trans.
Qed.

End Collation.

(** C7, as stated, fails: two listings with the same average 4.5, "Beta
    House" seen first and "Alpha House" second, are listed in that order. *)
Lemma C7_counterexample :
  map (fun s => (ls_listingName s, ls_averageRating s))
      (buildListingSummaries standardOnly codeUnitCompare (twoListings standardOnly))
  = [("Beta House"%string, Some (9 # 2)); ("Alpha House"%string, Some (9 # 2))] /\
  (0 < codeUnitCompare "Beta House" "Alpha House")%Z.
Proof. split; vm_compute; reflexivity. Qed.

End ListingOrder.

Section ListingGroups.

Local Abbreviation groups_get := (JSMap.get Z.eqb).

(** every group is filed under the listing of its first review *)
Local Abbreviation filedUnderListing :=
  (fun g : Z * (NormalizedReview * list NormalizedReview) =>
     listingId (fst (snd g)) = fst g).

Lemma set_Forall {V : Type} (P : Z * V -> Prop) (m : list (Z * V)) (k : Z) (v : V) :
  Forall P m -> P (k, v) -> Forall P (JSMap.set Z.eqb m k v).
Proof.
  intros Hm Hv. induction m as [|[k0 v0] m IH]; simpl.
  - constructor; [exact Hv | constructor].
  - inversion Hm as [|? ? H0 Hm']; subst.
    destruct (Z.eqb k0 k); constructor; auto.
Qed.

Lemma addToGroup_keys (groups : list (Z * (NormalizedReview * list NormalizedReview)))
    (review : NormalizedReview) :
  map fst (addToGroup groups review)
  = JSMap.add Z.eqb (map fst groups) (listingId review).
Proof.
  unfold addToGroup.
  destruct (JSMap.has Z.eqb groups (listingId review)) eqn:Hhas.
  - destruct (groups_get groups (listingId review)) as [[info rs]|].
    + apply (keys_set Z.eqb Z.eqb_eq).
    + symmetry. apply (keys_has Z.eqb _ _ Hhas).
  - rewrite (get_set_same Z.eqb Z.eqb_eq).
    rewrite (keys_set Z.eqb Z.eqb_eq).
    rewrite (keys_has Z.eqb (JSMap.set Z.eqb groups (listingId review) (review, []))).
    + apply (keys_set Z.eqb Z.eqb_eq).
    + unfold JSMap.has. now rewrite (get_set_same Z.eqb Z.eqb_eq).
Qed.

Lemma addToGroup_filed (groups : list (Z * (NormalizedReview * list NormalizedReview)))
    (review : NormalizedReview) :
  Forall filedUnderListing groups ->
  Forall filedUnderListing (addToGroup groups review).
Proof.
  intros H. unfold addToGroup.
  destruct (JSMap.has Z.eqb groups (listingId review)).
  - destruct (groups_get groups (listingId review)) as [[info rs]|] eqn:E; [|exact H].
    apply set_Forall; [exact H|].
    apply (get_In Z.eqb Z.eqb_eq) in E.
    rewrite Forall_forall in H. exact (H _ E).
  - rewrite (get_set_same Z.eqb Z.eqb_eq).
    apply set_Forall; [apply set_Forall; [exact H | reflexivity] | reflexivity].
Qed.

(** The groups are in the order in which their listings are first seen in
    the working set, one group per listing. *)
Lemma groupByListing_keys (reviews : list NormalizedReview) :
  map fst (groupByListing reviews) = listingsSeen reviews.
Proof.
  unfold groupByListing, listingsSeen, collectSet.
  change (@nil Z) with (map fst (@nil (Z * (NormalizedReview * list NormalizedReview)))).
  generalize (@nil (Z * (NormalizedReview * list NormalizedReview))).
  induction reviews as [|r reviews IH]; intros groups; simpl; [reflexivity|].
  now rewrite IH, addToGroup_keys.
Qed.

Lemma groupByListing_filed (reviews : list NormalizedReview) :
  Forall filedUnderListing (groupByListing reviews).
Proof.
  unfold groupByListing.
  assert (H : Forall filedUnderListing
                (@nil (Z * (NormalizedReview * list NormalizedReview)))) by constructor.
  revert H. generalize (@nil (Z * (NormalizedReview * list NormalizedReview))).
  induction reviews as [|r reviews IH]; intros groups H; simpl; [exact H|].
  apply IH. now apply addToGroup_filed.
Qed.

Lemma summaries_in_first_seen_order (hostParse : string -> option Z)
    (reviews : list NormalizedReview) :
  map ls_listingId (map (summarize hostParse) (groupByListing reviews))
  = listingsSeen reviews.
Proof.
  rewrite <- groupByListing_keys, map_map.
  pose proof (groupByListing_filed reviews) as H.
  induction H as [|[k [info rs]] groups Hg _ IH]; simpl; [reflexivity|].
  simpl in Hg. now rewrite Hg, IH.
Qed.

End ListingGroups.

(** C7, amended.  The listing summaries are a reordering of the per-listing
    groups, sorted by normalized average rating descending with null averages
    last; the summaries whose average is null appear in ascending
    (localeCompare) order of listing name; the groups stand, one per
    listing, in the order in which the listings are first seen in the
    working set, and the summaries with equal non-null averages keep that
    order. *)
Theorem C7_listing_summaries_order
    (hostParse : string -> option Z) (localeCompare : string -> string -> Z)
    (reviews : list NormalizedReview) :
  (forall a b, 0 < localeCompare a b -> localeCompare b a <= 0) ->
  (forall a b c, localeCompare a b <= 0 -> localeCompare b c <= 0 ->
                 localeCompare a c <= 0) ->
  let out := buildListingSummaries hostParse localeCompare reviews in
  let groups := map (summarize hostParse) (groupByListing reviews) in
  Permutation out groups /\
  StronglySorted avgGe out /\
  StronglySorted (nameLe localeCompare) (filter noAverage out) /\
  map ls_listingId groups = listingsSeen reviews /\
  forall q : Q, filter (averageIs q) out = filter (averageIs q) groups.
Proof.
  intros Htotal Htrans out groups. subst out groups.
  unfold buildListingSummaries.
  split; [|split; [|split; [|split]]].
  - apply sort_perm.
  - apply sort_sorted;
      [apply avgGe_trans | apply average_after | apply average_before].
  - apply (sorted_filter (summaryLe localeCompare)).
    + unfold noAverage, hasAverage, summaryLe. intros a b.
      destruct (ls_averageRating a), (ls_averageRating b); simpl;
        try discriminate; auto.
    + apply sort_sorted;
        [now apply summaryLe_trans | now apply summary_after
         | now apply summary_before].
  - apply summaries_in_first_seen_order.
  - intros q. apply sort_stable. apply equal_average_before.
Qed.

Lemma C7_witness :
  StronglySorted avgGe
    (buildListingSummaries standardOnly codeUnitCompare (twoListings standardOnly)).
Proof.
  apply (C7_listing_summaries_order standardOnly codeUnitCompare
           (twoListings standardOnly)).
  - apply codeUnitCompare_total.
  - apply codeUnitCompare_trans.
Defined.

(* ------------------------------------------------------------------------- *)
(** ** The response *)

Section Response.

(** what the host makes of a date string outside the standard format *)
Variable hostParse : string -> option Z.
Variable localeCompare : string -> string -> Z.

(** The response in closed form: the in-place sort reorders the filtered
    array, which [filter] allocated, and leaves the array of all normalized
    reviews as it was. *)
Lemma buildHostawayResponse_value (corpus : list HostawayReview)
    (store : ApprovalsStore) (now : string) (f : ReviewFilters)
    (h : Heap.heap) :
  let allNormalized := map (normalizeReview hostParse store) corpus in
  let sortedReviews :=
    JSArray.sort (sortComparator hostParse localeCompare (f_sort f))
      (filter (fun review => matchesFilters hostParse review f) allNormalized) in
  fst (buildHostawayResponse hostParse localeCompare corpus store now f h)
  = {| meta := {| generatedAt := now;
                  filters := collectMetaFilters hostParse allNormalized |};
       metrics := {| overall := computeMetrics hostParse allNormalized;
                     filtered := computeMetrics hostParse sortedReviews |};
       listings := buildListingSummaries hostParse localeCompare sortedReviews;
       reviews := sortedReviews |}.
Proof.
  intros allNormalized sortedReviews.
  cbv beta iota zeta delta
    [buildHostawayResponse applySorting Heap.arrayFilter Heap.arraySort
     Heap.bind Heap.alloc Heap.read Heap.write Heap.ret fst].
  fold allNormalized.
  set (h1 := (h ++ [allNormalized])%list).
  assert (E1 : Heap.contents h1 (List.length h) = allNormalized)
    by apply contents_alloc.
  rewrite E1.
  set (filteredReviews := filter (fun review => matchesFilters hostParse review f) allNormalized).
  set (h2 := (h1 ++ [filteredReviews])%list).
  assert (E2 : Heap.contents h2 (List.length h1) = filteredReviews)
    by apply contents_alloc.
  rewrite E2. fold sortedReviews.
  assert (L1 : (List.length h < List.length h1)%nat)
    by (subst h1; rewrite length_app; simpl; lia).
  assert (L2 : (List.length h1 < List.length h2)%nat)
    by (subst h2; rewrite length_app; simpl; lia).
  rewrite (contents_update_same _ _ _ L2).
  rewrite contents_update_other by lia.
  subst h2. rewrite (contents_alloc_old _ _ _ L1), E1.
  reflexivity.
Qed.

(** C9.  For a fixed corpus and a fixed state of the approvals store, the
    filter vocabulary of the metadata (channels, review types, categories,
    statuses, date range) and the overall metrics are the same in any two
    responses, whatever the filter and sort parameters, the clock and the
    arrays already allocated: both are computed from the full normalized
    corpus. *)
Theorem C9_vocabulary_and_overall_metrics_ignore_the_query
    (corpus : list HostawayReview) (store : ApprovalsStore)
    (now1 now2 : string) (f1 f2 : ReviewFilters) (h1 h2 : Heap.heap) :
  let r1 := fst (buildHostawayResponse hostParse localeCompare corpus store now1 f1 h1) in
  let r2 := fst (buildHostawayResponse hostParse localeCompare corpus store now2 f2 h2) in
  filters (meta r1) = filters (meta r2) /\
  overall (metrics r1) = overall (metrics r2) /\
  filters (meta r1) = collectMetaFilters hostParse (map (normalizeReview hostParse store) corpus) /\
  overall (metrics r1) = computeMetrics hostParse (map (normalizeReview hostParse store) corpus).
Proof.
  intros r1 r2. subst r1 r2. rewrite !buildHostawayResponse_value.
  repeat split.
Qed.

End Response.
